(** * swamp: the credential exchange cycle of [swamp.go]

    A shallow embedding of [swamp.go].  Go strings are byte strings
    ([String.string]), [int64] values are integers with their wrap-around
    written out, Go pointers that may be [nil] are options.  Everything the
    program does to the outside (shell, terminal, AWS SDK, files, clock) goes
    through an explicit world: a chronological trace of calls together with
    their answers, and the contents of the files the program writes.  The
    answers themselves come from an environment record, so that every theorem
    holds for every behaviour of the provider and of the operating system. *)

From Stdlib Require Import String Ascii List ZArith Lia Bool.
Import ListNotations.

Local Open Scope string_scope.
Local Open Scope list_scope.

(** ** Go strings *)

Module GoStrings.

Definition LF : ascii := "010"%char.
Definition CR : ascii := "013"%char.
Definition TAB : ascii := "009"%char.
Definition SPACE : ascii := " "%char.
Definition SLASH : ascii := "/"%char.

Definition str1 (c : ascii) : string := String c EmptyString.

Definition isEmpty (s : string) : bool :=
  match s with EmptyString => true | String _ _ => false end.

(** Membership of a byte in a cutset, [strings.IndexByte(cutset, c) >= 0]. *)
Fixpoint inCutset (cutset : string) (c : ascii) : bool :=
  match cutset with
  | EmptyString => false
  | String d rest => Ascii.eqb c d || inCutset rest c
  end.

(** [strings.TrimLeft] for an ASCII cutset: drop leading bytes of the set. *)
Fixpoint TrimLeft (s cutset : string) : string :=
  match s with
  | EmptyString => EmptyString
  | String c s' => if inCutset cutset c then TrimLeft s' cutset else s
  end.

(** [strings.TrimRight] for an ASCII cutset: drop trailing bytes of the set. *)
Fixpoint TrimRight (s cutset : string) : string :=
  match s with
  | EmptyString => EmptyString
  | String c s' =>
      match TrimRight s' cutset with
      | EmptyString => if inCutset cutset c then EmptyString else str1 c
      | String d r => String c (String d r)
      end
  end.

(** [strings.Trim(s, cutset)].  For a cutset of ASCII bytes Go trims
    byte by byte on both ends (no byte of a multi-byte UTF-8 sequence is
    ASCII), which is what the two passes above do. *)
Definition Trim (s cutset : string) : string :=
  TrimLeft (TrimRight s cutset) cutset.

(** [strings.Split(s, sep)] for a non-empty separator: the pieces between
    the leftmost non-overlapping occurrences of [sep].  [skip] counts the
    bytes of an occurrence that are still to be passed over. *)
Fixpoint splitFrom (sep : string) (skip : nat) (s : string) : list string :=
  match s with
  | EmptyString => [EmptyString]
  | String c s' =>
      match skip with
      | S k => splitFrom sep k s'
      | O =>
          if String.prefix sep s
          then EmptyString :: splitFrom sep (String.length sep - 1) s'
          else match splitFrom sep 0 s' with
               | piece :: pieces => String c piece :: pieces
               | [] => [str1 c]
               end
      end
  end.

(** With an empty separator Go splits after each UTF-8 sequence; the
    bytewise version below agrees with it on ASCII text.  swamp only ever
    splits on the one-byte separator "/". *)
Definition Split (s sep : string) : list string :=
  match sep with
  | EmptyString => map str1 (list_ascii_of_string s)
  | String _ _ => splitFrom sep 0 s
  end.

(** Slice indexing [a[i]] with a Go [int] index: out of range panics. *)
Definition index {A : Type} (a : list A) (i : Z) : option A :=
  if (i <? 0)%Z then None
  else if (i >=? Z.of_nat (List.length a))%Z then None
  else nth_error a (Z.to_nat i).

(** Occurrence of a byte in a string. *)
Fixpoint contains (c : ascii) (s : string) : bool :=
  match s with
  | EmptyString => false
  | String d s' => Ascii.eqb d c || contains c s'
  end.

(** All bytes of [s] belong to [cutset]. *)
Fixpoint allIn (cutset s : string) : bool :=
  match s with
  | EmptyString => true
  | String c s' => inCutset cutset c && allIn cutset s'
  end.

End GoStrings.
Import GoStrings.

(** [cleanTokenCode], swamp.go:31. *)
Definition cutset : string := String SPACE (String CR (String LF EmptyString)).

Definition cleanTokenCode (tokenCode : string) : string :=
  Trim tokenCode cutset.

(** The derivation of the role session name, swamp.go:134-135:
    [parts := strings.Split(arn, "/"); parts[len(parts)-1]].
    [None] is the index-out-of-range panic. *)
Definition roleSessionNameOf (arn : string) : option string :=
  let parts := Split arn (str1 SLASH) in
  index parts (Z.of_nat (List.length parts) - 1).

(** ** The outside world *)

Definition Error := string.

(** A Go pointer: [None] is [nil]. *)
Definition ptr (A : Type) : Type := option A.

(** A Go pair [(value, err)] of which the program looks at [err] first. *)
Inductive GoResult (A : Type) : Type :=
| Ok (a : A)
| Err (e : Error).
Arguments Ok {A} a.
Arguments Err {A} e.

(** The fields of [SwampConfig] that swamp.go reads.  The struct itself and
    its methods [Validate] and [GetRoleArn] are declared outside swamp.go;
    the two methods are taken from the environment below. *)
Record SwampConfig : Type := {
  profile : string;
  intermediateProfile : string;
  targetProfile : string;
  region : string;
  tokenSerialNumber : string;
  mfaExec : string;
  intermediateDuration : Z;
  targetDuration : Z;
  exportProfile : bool;
  exportFile : string;
  renew : bool
}.

(** [session.Options{Config: aws.Config{Region: region}, Profile: profile}]. *)
Record Options : Type := {
  Config_Region : ptr string;
  Profile : string
}.

(** A [*session.Session]: the options it was built from and the region its
    configuration ended up with ([sess.Config.Region]). *)
Record Session : Type := {
  sessOptions : Options;
  sessRegion : ptr string
}.

Record Credentials : Type := {
  AccessKeyId : string;
  SecretAccessKey : string;
  SessionToken : string;
  Expiration : Z
}.

Record GetCallerIdentityOutput : Type := {
  Account : ptr string;
  Arn : ptr string;
  UserId : ptr string
}.

Record GetSessionTokenInput : Type := {
  gst_DurationSeconds : ptr Z;
  gst_SerialNumber : ptr string;
  gst_TokenCode : ptr string
}.

Record GetSessionTokenOutput : Type := {
  gst_Credentials : ptr Credentials
}.

Record AssumeRoleInput : Type := {
  ar_RoleArn : ptr string;
  ar_RoleSessionName : ptr string;
  ar_DurationSeconds : ptr Z
}.

Record AssumeRoleOutput : Type := {
  ar_Credentials : ptr Credentials
}.

(** Modelled from the spec: the [ProfileWriter] struct is declared outside
    swamp.go; the spec only says that it is a handle on the durable profile
    store, a file at a fixed location. *)
Record ProfileWriter : Type := {
  store : string
}.

(** One entry of the trace per call that leaves the process, with the
    answer the call got. *)
Inductive Event : Type :=
| EvStdout (text : string)
| EvStderr (text : string)
| EvUsage
| EvExec (cmd : string) (res : GoResult string)
| EvReadString (res : GoResult string)
| EvNewSession (opts : Options) (res : GoResult Session)
| EvGetCallerIdentity (sess : Session) (res : GoResult GetCallerIdentityOutput)
| EvGetSessionToken (sess : Session) (input : GetSessionTokenInput)
    (res : GoResult GetSessionTokenOutput)
| EvAssumeRole (sess : Session) (input : AssumeRoleInput)
    (res : GoResult AssumeRoleOutput)
| EvNewProfileWriter (res : GoResult ProfileWriter)
| EvWriteProfile (cred : ptr Credentials) (profileName : string)
    (rgn : ptr string) (res : option Error)
| EvCreate (path : string) (res : option Error)
| EvWrite (path : string) (data : string)
| EvSleep (nanoseconds : Z).

(** [files] holds the files that swamp.go opens itself, through
    [os.Create]; the profile store is only reached through the profile
    writer and is not part of it. *)
Record World : Type := {
  trace : list Event;
  files : string -> option string
}.

(** What the outside answers, as a function of everything that happened so
    far.  [file_Write] is the number of bytes a write to a file gets
    through (all of them, or fewer when the write fails).  [GetRoleArn] and
    [Validate] are the two methods of [SwampConfig] that swamp.go calls and
    does not define. *)
Record Env : Type := {
  exec_Output : string -> World -> GoResult string;
  stdin_ReadString : World -> GoResult string;
  session_NewSessionWithOptions : Options -> World -> GoResult (ptr string);
  sts_GetCallerIdentity : Session -> World -> GoResult GetCallerIdentityOutput;
  sts_GetSessionToken :
    Session -> GetSessionTokenInput -> World -> GoResult GetSessionTokenOutput;
  sts_AssumeRole : Session -> AssumeRoleInput -> World -> GoResult AssumeRoleOutput;
  os_Create : string -> World -> option Error;
  file_Write : string -> string -> World -> nat;
  pw_NewProfileWriter : World -> GoResult ProfileWriter;
  pw_WriteProfile :
    ProfileWriter -> ptr Credentials -> string -> ptr string -> World -> option Error;
  GetRoleArn : SwampConfig -> ptr string;
  Validate : SwampConfig -> option Error
}.

(** ** The monad of the program: state, exit, panic, and a loop that is
    still running when the fuel of the model is used up. *)

Inductive Result (A : Type) : Type :=
| Ret (a : A) (w : World)
| Exit (code : Z) (w : World)
| Panic (e : Error) (w : World)
| Running (w : World).
Arguments Ret {A} a w.
Arguments Exit {A} code w.
Arguments Panic {A} e w.
Arguments Running {A} w.

Definition M (A : Type) : Type := World -> Result A.

Definition ret {A : Type} (a : A) : M A := fun w => Ret a w.

Definition bind {A B : Type} (m : M A) (k : A -> M B) : M B :=
  fun w =>
    match m w with
    | Ret a w' => k a w'
    | Exit c w' => Exit c w'
    | Panic e w' => Panic e w'
    | Running w' => Running w'
    end.

Notation "x <- c1 ;; c2" := (bind c1 (fun x => c2))
  (at level 61, c1 at next level, right associativity).
Notation "c1 ;; c2" := (bind c1 (fun _ => c2))
  (at level 61, right associativity).

Definition finalWorld {A : Type} (r : Result A) : World :=
  match r with
  | Ret _ w | Exit _ w | Panic _ w | Running w => w
  end.

Definition record (e : Event) (w : World) : World :=
  {| trace := trace w ++ [e]; files := files w |}.

Definition emit (e : Event) : M unit := fun w => Ret tt (record e w).

Definition panic {A : Type} (e : Error) : M A := fun w => Panic e w.

Definition os_Exit {A : Type} (code : Z) : M A := fun w => Exit code w.

(** A call to the outside: ask the environment, log call and answer. *)
Definition call {A : Type} (answer : World -> A) (ev : A -> Event) : M A :=
  fun w => let r := answer w in Ret r (record (ev r) w).

Definition setFile (path : string) (content : string) (w : World) : World :=
  {| trace := trace w;
     files := fun p => if String.eqb p path then Some content else files w p |}.

(** [int64] wrap-around. *)
Definition wrap64 (z : Z) : Z :=
  ((z + 2 ^ 63) mod 2 ^ 64 - 2 ^ 63)%Z.

Definition time_Second : Z := 1000000000%Z.

Section Program.

Variable E : Env.

Definition printf (text : string) : M unit := emit (EvStdout text).

(** [session.Must(session.NewSessionWithOptions(options))]: panics when
    the session cannot be built. *)
Definition session_Must_NewSessionWithOptions (options : Options) : M Session :=
  r <- call (fun w =>
               match session_NewSessionWithOptions E options w with
               | Ok rgn => Ok {| sessOptions := options; sessRegion := rgn |}
               | Err e => Err e
               end)
            (EvNewSession options) ;;
  match r with
  | Ok sess => ret sess
  | Err e => panic e
  end.

Definition svc_GetCallerIdentity (svc : Session) : M (GoResult GetCallerIdentityOutput) :=
  call (sts_GetCallerIdentity E svc) (EvGetCallerIdentity svc).

Definition svc_GetSessionToken (svc : Session) (input : GetSessionTokenInput)
  : M (GoResult GetSessionTokenOutput) :=
  call (sts_GetSessionToken E svc input) (EvGetSessionToken svc input).

Definition svc_AssumeRole (svc : Session) (input : AssumeRoleInput)
  : M (GoResult AssumeRoleOutput) :=
  call (sts_AssumeRole E svc input) (EvAssumeRole svc input).

Definition WriteProfile (pw : ProfileWriter) (cred : ptr Credentials)
    (profileName : string) (rgn : ptr string) : M (option Error) :=
  call (pw_WriteProfile E pw cred profileName rgn)
       (EvWriteProfile cred profileName rgn).

Definition NewProfileWriter : M (GoResult ProfileWriter) :=
  call (pw_NewProfileWriter E) EvNewProfileWriter.

(** [os.Create]: on success the file exists and is empty. *)
Definition os_Create_file (path : string) : M (option Error) :=
  fun w =>
    let r := os_Create E path w in
    let w' := record (EvCreate path r) w in
    match r with
    | None => Ret r (setFile path EmptyString w')
    | Some _ => Ret r w'
    end.

(** [fmt.Fprintf(file, ...)] on the file just created: the bytes that the
    write gets through go after what the file holds.  The call returns the
    number of bytes written and an error when they are fewer than the text;
    the source drops both. *)
Definition Fprintf (path : string) (text : string) : M unit :=
  fun w =>
    let n := file_Write E path text w in
    let old := match files w path with Some c => c | None => EmptyString end in
    Ret tt (setFile path (old ++ String.substring 0 n text)
              (record (EvWrite path text) w)).

Definition time_Sleep (d : Z) : M unit := emit (EvSleep d).

(** swamp.go:17 *)
Definition die {A : Type} (msg : string) (err : Error) : M A :=
  emit (EvStderr (msg ++ ": " ++ err ++ str1 LF)) ;;
  os_Exit 1%Z.

(** swamp.go:22 *)
Definition getCallerId (svc : Session) : M GetCallerIdentityOutput :=
  r <- svc_GetCallerIdentity svc ;;
  match r with
  | Err err => die "Error fetching caller id" err
  | Ok output => ret output
  end.

(** swamp.go:35 *)
Definition fetchTokenCode (tokenSerialNumber cmd : string) : M string :=
  printf ("Obtaining mfa token for: " ++ tokenSerialNumber ++ str1 LF) ;;
  r <- call (exec_Output E cmd) (EvExec cmd) ;;
  match r with
  | Err err => die "Error obtaining mfa token" err
  | Ok output => ret output
  end.

(** swamp.go:45 *)
Definition askForTokenCode (tokenSerialNumber : string) : M string :=
  printf ("Enter mfa token for " ++ tokenSerialNumber ++ ": ") ;;
  r <- call (stdin_ReadString E) EvReadString ;;
  match r with
  | Err err => die "Error reading mfa token" err
  | Ok tokenCode => ret tokenCode
  end.

(** swamp.go:56 *)
Definition getTokenCode (config : SwampConfig) : M string :=
  tokenCode <- (if negb (isEmpty (mfaExec config))
                then fetchTokenCode (tokenSerialNumber config) (mfaExec config)
                else askForTokenCode (tokenSerialNumber config)) ;;
  ret (cleanTokenCode tokenCode).

(** swamp.go:66 *)
Definition validateSessionToken (options : Options) : M bool :=
  svc <- session_Must_NewSessionWithOptions options ;;
  r <- svc_GetCallerIdentity svc ;;
  ret (match r with Ok _ => true | Err _ => false end).

(** swamp.go:73 *)
Definition getSessionToken (options : Options) (config : SwampConfig)
  : M (ptr Credentials) :=
  svc <- session_Must_NewSessionWithOptions options ;;
  tokenCode <- getTokenCode config ;;
  r <- svc_GetSessionToken svc
         {| gst_DurationSeconds := Some (intermediateDuration config);
            gst_SerialNumber := Some (tokenSerialNumber config);
            gst_TokenCode := Some tokenCode |} ;;
  match r with
  | Err err => die "Error getting session token" err
  | Ok output => ret (gst_Credentials output)
  end.

(** swamp.go:97 *)
Definition newSessionOptions (profile region : string) : Options :=
  {| Config_Region := Some region; Profile := profile |}.

(** swamp.go:89 *)
Definition getIntermediateSessionOptions (config : SwampConfig) : Options :=
  newSessionOptions (intermediateProfile config) (region config).

(** swamp.go:93 *)
Definition getBaseSessionOptions (config : SwampConfig) : Options :=
  newSessionOptions (profile config) (region config).

(** swamp.go:105 *)
Definition ensureSessionTokenProfile (config : SwampConfig) (pw : ProfileWriter)
  : M unit :=
  valid <- validateSessionToken (getIntermediateSessionOptions config) ;;
  if valid
  then printf ("Session token for profile " ++ profile config
               ++ " is still valid" ++ str1 LF)
  else
    cred <- getSessionToken (getBaseSessionOptions config) config ;;
    err <- WriteProfile pw cred (intermediateProfile config) (Some (region config)) ;;
    match err with
    | Some err => die "Error writing profile" err
    | None => ret tt
    end.

(** swamp.go:116 *)
Definition assumeRole (svc : Session) (roleArn roleSessionName : ptr string)
    (duration : ptr Z) : M (ptr Credentials) :=
  r <- svc_AssumeRole svc
         {| ar_RoleArn := roleArn;
            ar_RoleSessionName := roleSessionName;
            ar_DurationSeconds := duration |} ;;
  match r with
  | Err err => die "Error assuming role" err
  | Ok output => ret (ar_Credentials output)
  end.

(** swamp.go:130.  Dereferencing a nil [Arn] panics, as does an index out
    of range. *)
Definition ensureTargetProfile (config : SwampConfig) (pw : ProfileWriter)
    (sess : Session) : M unit :=
  output <- getCallerId sess ;;
  match Arn output with
  | None => panic "invalid memory address or nil pointer dereference"
  | Some userId =>
      match roleSessionNameOf userId with
      | None => panic "index out of range"
      | Some roleSessionName =>
          cred <- assumeRole sess (GetRoleArn E config) (Some roleSessionName)
                    (Some (targetDuration config)) ;;
          err <- WriteProfile pw cred (targetProfile config) (sessRegion sess) ;;
          match err with
          | Some err => die "Error writing profile" err
          | None => ret tt
          end
      end
  end.

Definition exportText (targetProfile : string) : string :=
  "export AWS_PROFILE=" ++ targetProfile ++ str1 LF
  ++ "unset AWS_ACCESS_KEY_ID" ++ str1 LF
  ++ "unset AWS_SECRET_ACCESS_KEY" ++ str1 LF.

(** swamp.go:143 *)
Definition writeProfileToFile (config : SwampConfig) : M unit :=
  err <- os_Create_file (exportFile config) ;;
  match err with
  | Some err => die "Error writing target profile to export file" err
  | None => Fprintf (exportFile config) (exportText (targetProfile config))
  end.

(** swamp.go:165-169 *)
Definition baseProfileOf (config : SwampConfig) : string :=
  if negb (isEmpty (tokenSerialNumber config))
  then intermediateProfile config
  else profile config.

(** The body of the [for] loop up to the renewal decision, swamp.go:176-188. *)
Definition cycle (config : SwampConfig) (pw : ProfileWriter) (baseProfile : string)
  : M unit :=
  (if negb (isEmpty (tokenSerialNumber config))
   then ensureSessionTokenProfile config pw
   else ret tt) ;;
  sess <- session_Must_NewSessionWithOptions
            (newSessionOptions baseProfile (region config)) ;;
  ensureTargetProfile config pw sess ;;
  (if exportProfile config then writeProfileToFile config else ret tt).

(** [time.Second * time.Duration(config.targetDuration/2)], in [int64]. *)
Definition renewalDelay (config : SwampConfig) : Z :=
  wrap64 (time_Second * wrap64 (Z.quot (targetDuration config) 2)).

(** The [for] loop, swamp.go:175-194; [fuel] bounds the iterations the
    model follows. *)
Fixpoint forLoop (fuel : nat) (config : SwampConfig) (pw : ProfileWriter)
    (baseProfile : string) : M unit :=
  match fuel with
  | O => fun w => Running w
  | S fuel' =>
      cycle config pw baseProfile ;;
      if negb (renew config)
      then ret tt
      else time_Sleep (renewalDelay config) ;;
           forLoop fuel' config pw baseProfile
  end.

(** swamp.go:153, from the parsed flags on: [config] is what
    [NewSwampConfig], [SetupFlags] and [flag.Parse] (swamp.go:155-157) have
    produced; the flag parser and its own exits are not part of it. *)
Definition main (fuel : nat) (config : SwampConfig) : M unit :=
  match Validate E config with
  | Some err =>
      emit (EvStderr (err ++ str1 LF)) ;;
      emit EvUsage ;;
      os_Exit 1%Z
  | None =>
      let baseProfile := baseProfileOf config in
      r <- NewProfileWriter ;;
      match r with
      | Err err => die "Error initializing profile writer" err
      | Ok pw => forLoop fuel config pw baseProfile
      end
  end.

End Program.

(** ** Vocabulary of the statements *)

(** First and last byte of a string. *)
Definition firstByte (s : string) : option ascii :=
  match s with EmptyString => None | String c _ => Some c end.

Fixpoint lastByte (s : string) : option ascii :=
  match s with
  | EmptyString => None
  | String c EmptyString => Some c
  | String _ s' => lastByte s'
  end.

(** ASCII white space as Go's [unicode.IsSpace] has it:
    tab, line feed, vertical tab, form feed, carriage return, space. *)
Definition isSpace (c : ascii) : bool :=
  let n := nat_of_ascii c in
  ((9 <=? n) && (n <=? 13))%nat || (n =? 32)%nat.

(** The text made of the given lines, each closed by a line feed. *)
Fixpoint unlines (ls : list string) : string :=
  match ls with
  | [] => EmptyString
  | l :: ls' => l ++ str1 LF ++ unlines ls'
  end.

(** [text] consists of exactly the lines [ls]. *)
Definition hasLines (text : string) (ls : list string) : Prop :=
  text = unlines ls /\ Forall (fun l => contains LF l = false) ls.

Fixpoint countByte (c : ascii) (s : string) : nat :=
  match s with
  | EmptyString => 0
  | String d s' => (if Ascii.eqb d c then 1 else 0) + countByte c s'
  end.

(** Classification of trace events. *)
Definition isGetSessionToken (e : Event) : bool :=
  match e with EvGetSessionToken _ _ _ => true | _ => false end.

Definition isAssumeRole (e : Event) : bool :=
  match e with EvAssumeRole _ _ _ => true | _ => false end.

Definition isGetCallerIdentity (e : Event) : bool :=
  match e with EvGetCallerIdentity _ _ => true | _ => false end.

Definition isWriteProfile (e : Event) : bool :=
  match e with EvWriteProfile _ _ _ _ => true | _ => false end.

Definition isSleep (e : Event) : bool :=
  match e with EvSleep _ => true | _ => false end.

(** The MFA code is asked for: the command is run or the terminal is read. *)
Definition isTokenAcquisition (e : Event) : bool :=
  match e with EvExec _ _ | EvReadString _ => true | _ => false end.

(** Any call to the provider. *)
Definition isProviderCall (e : Event) : bool :=
  isGetCallerIdentity e || isGetSessionToken e || isAssumeRole e.

Definition count (p : Event -> bool) (evs : list Event) : nat :=
  List.length (filter p evs).

(** [e2] comes right after [e1] in [evs]. *)
Definition follows (e1 e2 : Event) (evs : list Event) : Prop :=
  exists pre post, evs = pre ++ e1 :: e2 :: post.


(** The computation [m] only adds events that satisfy [P], whatever the
    world it starts from and however it ends. *)
Definition emits {A : Type} (P : Event -> Prop) (m : M A) : Prop :=
  forall w, exists evs,
    trace (finalWorld (m w)) = trace w ++ evs /\ Forall P evs.

(** What follows the intermediate session step in a cycle. *)
Definition targetStep (E : Env) (config : SwampConfig) (pw : ProfileWriter)
    (baseProfile : string) : M unit :=
  sess <- session_Must_NewSessionWithOptions E
            (newSessionOptions baseProfile (region config)) ;;
  ensureTargetProfile E config pw sess ;;
  (if exportProfile config then writeProfileToFile E config else ret tt).

(** The refresh branch of [ensureSessionTokenProfile]. *)
Definition refreshStep (E : Env) (config : SwampConfig) (pw : ProfileWriter)
  : M unit :=
  cred <- getSessionToken E (getBaseSessionOptions config) config ;;
  err <- WriteProfile E pw cred (intermediateProfile config) (Some (region config)) ;;
  match err with
  | Some err => die "Error writing profile" err
  | None => ret tt
  end.

(** Something is written to the terminal, as the MFA prompt is. *)
Definition isStdout (e : Event) : bool :=
  match e with EvStdout _ => true | _ => false end.

(** The three lines of the export file for a target profile. *)
Definition exportLines (targetProfile : string) : list string :=
  [ ("export AWS_PROFILE=" ++ targetProfile)%string;
    "unset AWS_ACCESS_KEY_ID";
    "unset AWS_SECRET_ACCESS_KEY" ].

(** ** Concrete worlds, used to run the program on explicit inputs *)

Module Demo.

Definition emptyWorld : World :=
  {| trace := []; files := fun _ => None |}.

Definition exportPath : string := "/home/alice/.swamp.env".

(** A world in which the export file already exists. *)
Definition usedWorld : World :=
  {| trace := [];
     files := fun p => if String.eqb p exportPath
                       then Some "export AWS_PROFILE=old-profile-left-here"
                       else None |}.

Definition aliceArn : string := "arn:aws:iam::123456789012:user/alice".

Definition alice : GetCallerIdentityOutput :=
  {| Account := Some "123456789012";
     Arn := Some aliceArn;
     UserId := Some "AIDAEXAMPLEUSER" |}.

Definition sessionCreds : Credentials :=
  {| AccessKeyId := "ASIASESSION"; SecretAccessKey := "s3cr3t";
     SessionToken := "session-token"; Expiration := 1800000000 |}.

Definition roleCreds : Credentials :=
  {| AccessKeyId := "ASIAROLE"; SecretAccessKey := "r0l3";
     SessionToken := "role-token"; Expiration := 1800003600 |}.

(** Two behaviours of session construction. *)
Definition sessionKeepsRegion (options : Options) : GoResult (ptr string) :=
  Ok (Config_Region options).

Definition sessionBroken (options : Options) : GoResult (ptr string) :=
  Err "SharedConfigLoadError: failed to load config file".

(** Two behaviours of the identity lookup: it always succeeds; or it fails
    for the profile "mfa" until some profile has been written. *)
Definition identityAlways (sess : Session) (w : World)
  : GoResult GetCallerIdentityOutput :=
  Ok alice.

Definition identityAfterRefresh (sess : Session) (w : World)
  : GoResult GetCallerIdentityOutput :=
  if String.eqb (Profile (sessOptions sess)) "mfa"
     && negb (existsb isWriteProfile (trace w))
  then Err "ExpiredToken: the security token included in the request is expired"
  else Ok alice.

Definition env (rawToken : string)
    (session : Options -> GoResult (ptr string))
    (identity : Session -> World -> GoResult GetCallerIdentityOutput)
    (writer : GoResult ProfileWriter) : Env :=
  {| exec_Output := fun _ _ => Ok rawToken;
     stdin_ReadString := fun _ => Ok rawToken;
     session_NewSessionWithOptions := fun options _ => session options;
     sts_GetCallerIdentity := identity;
     sts_GetSessionToken := fun _ _ _ => Ok {| gst_Credentials := Some sessionCreds |};
     sts_AssumeRole := fun _ _ _ => Ok {| ar_Credentials := Some roleCreds |};
     os_Create := fun _ _ => None;
     file_Write := fun _ text _ => String.length text;
     pw_NewProfileWriter := fun _ => writer;
     pw_WriteProfile := fun _ _ _ _ _ => None;
     GetRoleArn := fun _ => Some "arn:aws:iam::210987654321:role/admin";
     Validate := fun _ => None |}.

Definition writer : ProfileWriter := {| store := "/home/alice/.aws/credentials" |}.

Definition rawToken : string :=
  String SPACE ("123456" ++ String CR (String LF EmptyString)).

Definition happy : Env :=
  env rawToken sessionKeepsRegion identityAlways (Ok writer).

Definition expired : Env :=
  env rawToken sessionKeepsRegion identityAfterRefresh (Ok writer).

Definition config (serial target : string) (renewFlag : bool) : SwampConfig :=
  {| profile := "default";
     intermediateProfile := "mfa";
     targetProfile := target;
     region := "eu-west-1";
     tokenSerialNumber := serial;
     mfaExec := "ykman oath accounts code -s aws";
     intermediateDuration := 43200;
     targetDuration := 3600;
     exportProfile := true;
     exportFile := exportPath;
     renew := renewFlag |}.

Definition serial : string := "arn:aws:iam::123456789012:mfa/alice".

End Demo.

(** ** Vocabulary of the further properties *)

(** [strings.Join(pieces, sep)], the inverse of a split. *)
Fixpoint Join (pieces : list string) (sep : string) : string :=
  match pieces with
  | [] => EmptyString
  | [piece] => piece
  | piece :: rest => piece ++ sep ++ Join rest sep
  end.

Definition isNewSession (e : Event) : bool :=
  match e with EvNewSession _ _ => true | _ => false end.

Definition isCreate (e : Event) : bool :=
  match e with EvCreate _ _ => true | _ => false end.

Definition isWrite (e : Event) : bool :=
  match e with EvWrite _ _ => true | _ => false end.

Definition isStderr (e : Event) : bool :=
  match e with EvStderr _ => true | _ => false end.

(** A call whose failure the program answers with [die]. *)
Definition isFatalFailure (e : Event) : bool :=
  match e with
  | EvExec _ (Err _) => true
  | EvReadString (Err _) => true
  | EvGetSessionToken _ _ (Err _) => true
  | EvAssumeRole _ _ (Err _) => true
  | EvWriteProfile _ _ _ (Some _) => true
  | EvCreate _ (Some _) => true
  | _ => false
  end.

(** [P prev e] holds of every event [e] of [evs] and the event [prev] right
    before it ([None] at the start). *)
Fixpoint eachWithPrevious (P : option Event -> Event -> Prop)
    (prev : option Event) (evs : list Event) : Prop :=
  match evs with
  | [] => True
  | e :: evs' => P prev e /\ eachWithPrevious P (Some e) evs'
  end.

(** [P e rest] holds of every event [e] of [evs] and the events after it. *)
Fixpoint eachWithRest (P : Event -> list Event -> Prop) (evs : list Event) : Prop :=
  match evs with
  | [] => True
  | e :: evs' => P e evs' /\ eachWithRest P evs'
  end.

(** What may come right before a profile write: the provider call that
    returned the credentials being written. *)
Definition writeComesFrom (config : SwampConfig) (prior e : Event) : Prop :=
  (exists sess input output r,
      prior = EvGetSessionToken sess input (Ok output)
      /\ e = EvWriteProfile (gst_Credentials output) (intermediateProfile config)
               (Some (region config)) r)
  \/ (exists sess input output r,
         prior = EvAssumeRole sess input (Ok output)
         /\ e = EvWriteProfile (ar_Credentials output) (targetProfile config)
                  (sessRegion sess) r).

(** The event at the end of [pre], or [prev] when [pre] is empty. *)
Definition lastEvent (prev : option Event) (pre : list Event) : option Event :=
  fold_left (fun _ e => Some e) pre prev.

(** What comes right before the MFA code is asked for: the line that
    announces it, and the way of asking that the configuration selects. *)
Definition acquisitionAnnounced (config : SwampConfig) (prior e : Event) : Prop :=
  (isEmpty (mfaExec config) = true
   /\ prior = EvStdout ("Enter mfa token for " ++ tokenSerialNumber config ++ ": ")
   /\ exists r, e = EvReadString r)
  \/ (isEmpty (mfaExec config) = false
      /\ prior = EvStdout ("Obtaining mfa token for: "
                           ++ tokenSerialNumber config ++ str1 LF)
      /\ exists r, e = EvExec (mfaExec config) r).

(** What comes right before the export file is touched. *)
Definition exportComesAfter (config : SwampConfig) (prior e : Event) : Prop :=
  (exists cred rgn r,
      prior = EvWriteProfile cred (targetProfile config) rgn None
      /\ e = EvCreate (exportFile config) r)
  \/ (prior = EvCreate (exportFile config) None
      /\ e = EvWrite (exportFile config) (exportText (targetProfile config))).



(** ** More concrete worlds *)

Module Failing.

(** The provider refuses the role assumption; everything else works. *)
Definition denied : Env :=
  {| exec_Output := exec_Output Demo.happy;
     stdin_ReadString := stdin_ReadString Demo.happy;
     session_NewSessionWithOptions := session_NewSessionWithOptions Demo.happy;
     sts_GetCallerIdentity := sts_GetCallerIdentity Demo.happy;
     sts_GetSessionToken := sts_GetSessionToken Demo.happy;
     sts_AssumeRole := fun _ _ _ =>
       Err "AccessDenied: not authorized to perform sts:AssumeRole";
     os_Create := os_Create Demo.happy;
     file_Write := file_Write Demo.happy;
     pw_NewProfileWriter := pw_NewProfileWriter Demo.happy;
     pw_WriteProfile := pw_WriteProfile Demo.happy;
     GetRoleArn := GetRoleArn Demo.happy;
     Validate := Validate Demo.happy |}.

(** No room is left on the device of the export file: it can be created,
    and no byte written to it gets through. *)
Definition diskFull : Env :=
  {| exec_Output := exec_Output Demo.happy;
     stdin_ReadString := stdin_ReadString Demo.happy;
     session_NewSessionWithOptions := session_NewSessionWithOptions Demo.happy;
     sts_GetCallerIdentity := sts_GetCallerIdentity Demo.happy;
     sts_GetSessionToken := sts_GetSessionToken Demo.happy;
     sts_AssumeRole := sts_AssumeRole Demo.happy;
     os_Create := os_Create Demo.happy;
     file_Write := fun _ _ _ => 0;
     pw_NewProfileWriter := pw_NewProfileWriter Demo.happy;
     pw_WriteProfile := pw_WriteProfile Demo.happy;
     GetRoleArn := GetRoleArn Demo.happy;
     Validate := Validate Demo.happy |}.

(** The identity lookup fails, or answers without an ARN. *)
Definition unknownCaller : Env :=
  Demo.env Demo.rawToken Demo.sessionKeepsRegion
    (fun _ _ => Err "InvalidClientTokenId: the security token is invalid")
    (Ok Demo.writer).

Definition namelessCaller : Env :=
  Demo.env Demo.rawToken Demo.sessionKeepsRegion
    (fun _ _ => Ok {| Account := None; Arn := None; UserId := None |})
    (Ok Demo.writer).

(** The MFA command answers with blanks only. *)
Definition blank : string := String SPACE (String CR (String LF EmptyString)).

Definition blankAnswer : Env :=
  Demo.env blank Demo.sessionKeepsRegion Demo.identityAfterRefresh (Ok Demo.writer).

(** The profile store cannot be opened. *)
Definition noStore : Env :=
  Demo.env Demo.rawToken Demo.sessionKeepsRegion Demo.identityAlways
    (Err "open /home/alice/.aws/credentials: permission denied").

Definition plain : SwampConfig := Demo.config EmptyString "admin" false.

Definition withMfa : SwampConfig := Demo.config Demo.serial "admin" false.

Definition baseSession : Session :=
  {| sessOptions := getBaseSessionOptions plain;
     sessRegion := Some "eu-west-1" |}.

End Failing.

(** ** Examples *)

Example split_arn :
  Split "arn:aws:iam::123456789012:user/ops/alice" (str1 SLASH)
  = ["arn:aws:iam::123456789012:user"; "ops"; "alice"].
Proof. reflexivity. Qed.

Example split_sep2 : Split "a--b---c" "--" = ["a"; "b"; "-c"].
Proof. reflexivity. Qed.

Example name_alice :
  roleSessionNameOf "arn:aws:iam::123456789012:user/alice" = Some "alice".
Proof. reflexivity. Qed.

Example clean_example :
  cleanTokenCode (String SPACE ("123 456" ++ String CR (String LF EmptyString)))
  = "123 456".
Proof. reflexivity. Qed.

(** ** Go strings: trimming *)

Section Trimming.

Variable cs : string.

Lemma TrimLeft_decompose (s : string) :
  exists pre, s = (pre ++ TrimLeft s cs)%string /\ allIn cs pre = true.
Proof.
  induction s as [|c s IH]; simpl.
  - exists EmptyString; auto.
  - destruct (inCutset cs c) eqn:Hc.
    + destruct IH as [pre [Heq Hall]].
      exists (String c pre); simpl. rewrite Hc, Hall. split; [congruence | reflexivity].
    + exists EmptyString; auto.
Qed.

Lemma TrimLeft_first (s : string) (c : ascii) :
  firstByte (TrimLeft s cs) = Some c -> inCutset cs c = false.
Proof.
  induction s as [|d s IH]; simpl; [discriminate|].
  destruct (inCutset cs d) eqn:Hd; auto.
  simpl; intros H; inversion H; subst; assumption.
Qed.

Lemma TrimLeft_last (s : string) (c : ascii) :
  lastByte (TrimLeft s cs) = Some c -> lastByte s = Some c.
Proof.
  induction s as [|d s IH]; simpl; auto.
  destruct (inCutset cs d) eqn:Hd; simpl; auto.
  intros H. specialize (IH H).
  destruct s; [discriminate | assumption].
Qed.

Lemma TrimRight_decompose (s : string) :
  exists post, s = (TrimRight s cs ++ post)%string /\ allIn cs post = true.
Proof.
  induction s as [|c s IH]; simpl.
  - exists EmptyString; auto.
  - destruct IH as [post [Heq Hall]].
    destruct (TrimRight s cs) as [|d r] eqn:Ht.
    + destruct (inCutset cs c) eqn:Hc.
      * exists (String c post); simpl in *. rewrite Hc, Hall. split; [congruence | reflexivity].
      * exists post; simpl in *. split; [congruence | assumption].
    + exists post. simpl in *. split; [congruence | assumption].
Qed.

Lemma TrimRight_last (s : string) (c : ascii) :
  lastByte (TrimRight s cs) = Some c -> inCutset cs c = false.
Proof.
  induction s as [|d s IH]; simpl; [discriminate|].
  destruct (TrimRight s cs) as [|d' r] eqn:Ht.
  - destruct (inCutset cs d) eqn:Hd; simpl; [discriminate|].
    intros H; inversion H; subst; assumption.
  - intros H. apply IH. exact H.
Qed.

Lemma TrimRight_all (s : string) :
  allIn cs s = true -> TrimRight s cs = EmptyString.
Proof.
  induction s as [|c s IH]; simpl; auto.
  intros H. apply andb_true_iff in H. destruct H as [Hc Hs].
  rewrite (IH Hs), Hc. reflexivity.
Qed.

Lemma TrimRight_app_r (s post : string) :
  allIn cs post = true -> TrimRight (s ++ post)%string cs = TrimRight s cs.
Proof.
  intros Hp. induction s as [|c s IH]; simpl.
  - apply TrimRight_all; assumption.
  - rewrite IH. reflexivity.
Qed.

Lemma TrimRight_app_l (pre s : string) :
  allIn cs pre = true ->
  TrimRight (pre ++ s)%string cs =
  match TrimRight s cs with
  | EmptyString => EmptyString
  | String d r => (pre ++ String d r)%string
  end.
Proof.
  induction pre as [|c pre IH]; simpl; intros H.
  - destruct (TrimRight s cs); reflexivity.
  - apply andb_true_iff in H. destruct H as [Hc Hp].
    rewrite (IH Hp).
    destruct (TrimRight s cs) as [|d r].
    + rewrite Hc. reflexivity.
    + destruct pre; reflexivity.
Qed.

Lemma TrimLeft_app_l (pre s : string) :
  allIn cs pre = true -> TrimLeft (pre ++ s)%string cs = TrimLeft s cs.
Proof.
  induction pre as [|c pre IH]; simpl; intros H; auto.
  apply andb_true_iff in H. destruct H as [Hc Hp].
  rewrite Hc. auto.
Qed.

Lemma Trim_first (s : string) (c : ascii) :
  firstByte (Trim s cs) = Some c -> inCutset cs c = false.
Proof. apply TrimLeft_first. Qed.

Lemma Trim_last (s : string) (c : ascii) :
  lastByte (Trim s cs) = Some c -> inCutset cs c = false.
Proof.
  unfold Trim. intros H. apply TrimLeft_last in H.
  apply TrimRight_last in H. exact H.
Qed.

Lemma append_assoc (a b c : string) : ((a ++ b) ++ c = a ++ (b ++ c))%string.
Proof. induction a; simpl; congruence. Qed.

Lemma Trim_decompose (s : string) :
  exists pre post,
    s = (pre ++ Trim s cs ++ post)%string /\ allIn cs pre = true /\ allIn cs post = true.
Proof.
  destruct (TrimRight_decompose s) as [post [Hs Hpost]].
  destruct (TrimLeft_decompose (TrimRight s cs)) as [pre [Ht Hpre]].
  exists pre, post. unfold Trim. repeat split; auto.
  rewrite <- append_assoc, <- Ht. exact Hs.
Qed.

Lemma Trim_padding (pre s post : string) :
  allIn cs pre = true -> allIn cs post = true ->
  Trim (pre ++ s ++ post)%string cs = Trim s cs.
Proof.
  intros Hpre Hpost. unfold Trim.
  rewrite (TrimRight_app_l _ _ Hpre), (TrimRight_app_r _ _ Hpost).
  destruct (TrimRight s cs) as [|d r]; [reflexivity|].
  apply TrimLeft_app_l; assumption.
Qed.

End Trimming.

(** ** Go strings: splitting on "/" *)

Lemma contains_append (c : ascii) (a b : string) :
  contains c (a ++ b)%string = contains c a || contains c b.
Proof.
  induction a as [|d a IH]; simpl; auto.
  rewrite IH. apply orb_assoc.
Qed.

Lemma prefix_slash (c : ascii) (s : string) :
  String.prefix (str1 SLASH) (String c s) = Ascii.eqb c SLASH.
Proof.
  unfold str1.
  change (String.prefix (String SLASH EmptyString) (String c s))
    with (if ascii_dec SLASH c then String.prefix EmptyString s else false).
  destruct (ascii_dec SLASH c) as [Heq|Hne].
  - rewrite <- Heq, Ascii.eqb_refl. destruct s; reflexivity.
  - symmetry. apply Ascii.eqb_neq. congruence.
Qed.

Lemma splitFrom_slash_cons (c : ascii) (s : string) :
  splitFrom (str1 SLASH) 0 (String c s) =
  if Ascii.eqb c SLASH
  then EmptyString :: splitFrom (str1 SLASH) 0 s
  else match splitFrom (str1 SLASH) 0 s with
       | piece :: pieces => String c piece :: pieces
       | [] => [str1 c]
       end.
Proof.
  change (splitFrom (str1 SLASH) 0 (String c s)) with
    (if String.prefix (str1 SLASH) (String c s)
     then EmptyString :: splitFrom (str1 SLASH) 0 s
     else match splitFrom (str1 SLASH) 0 s with
          | piece :: pieces => String c piece :: pieces
          | [] => [str1 c]
          end).
  rewrite prefix_slash. reflexivity.
Qed.

Lemma Split_slash (s : string) :
  Split s (str1 SLASH) = splitFrom (str1 SLASH) 0 s.
Proof. reflexivity. Qed.

(** The pieces of a split on "/" end with a piece free of "/", which is
    the whole string or what follows its last "/". *)
Lemma split_slash_last (s : string) :
  exists init name,
    Split s (str1 SLASH) = init ++ [name]
    /\ contains SLASH name = false
    /\ ((init = [] /\ s = name)
        \/ (init <> [] /\ exists p, s = (p ++ str1 SLASH ++ name)%string)).
Proof.
  induction s as [|c s IH].
  - exists [], EmptyString. simpl. auto.
  - rewrite Split_slash, splitFrom_slash_cons, <- Split_slash.
    destruct IH as [init [name [Hsplit [Hname Hshape]]]].
    destruct (Ascii.eqb c SLASH) eqn:Hc.
    + apply Ascii.eqb_eq in Hc. subst c.
      exists (EmptyString :: init), name. rewrite Hsplit.
      split; [reflexivity|]. split; [assumption|].
      right. split; [discriminate|].
      destruct Hshape as [[_ Hs] | [_ [p Hs]]].
      * exists EmptyString. subst s. reflexivity.
      * exists (String SLASH p). subst s. reflexivity.
    + rewrite Hsplit.
      destruct Hshape as [[Hinit Hs] | [Hinit [p Hs]]].
      * subst init. exists [], (String c name). simpl.
        split; [reflexivity|]. split.
        -- rewrite Hc, Hname. reflexivity.
        -- left. split; congruence.
      * destruct init as [|h t]; [congruence|].
        exists (String c h :: t), name. simpl.
        split; [reflexivity|]. split; [assumption|].
        right. split; [discriminate|].
        exists (String c p). subst s. reflexivity.
Qed.

Lemma index_last {A : Type} (init : list A) (x : A) :
  index (init ++ [x]) (Z.of_nat (List.length (init ++ [x])) - 1) = Some x.
Proof.
  unfold index. rewrite length_app. simpl List.length.
  replace (Z.of_nat (List.length init + 1) - 1)%Z with (Z.of_nat (List.length init)) by lia.
  destruct (Z.ltb_spec (Z.of_nat (List.length init)) 0); [lia|].
  destruct (Z.geb_spec (Z.of_nat (List.length init)) (Z.of_nat (List.length init + 1))); [lia|].
  rewrite Nat2Z.id, nth_error_app2 by lia.
  rewrite Nat.sub_diag. reflexivity.
Qed.

Lemma split_slash_no_slash (s : string) :
  contains SLASH s = false -> Split s (str1 SLASH) = [s].
Proof.
  induction s as [|c s IH]; intros H; [reflexivity|].
  simpl in H. apply orb_false_iff in H. destruct H as [Hc Hs].
  rewrite Split_slash, splitFrom_slash_cons, <- Split_slash, Hc, (IH Hs).
  reflexivity.
Qed.

Lemma split_slash_suffix (p name : string) :
  contains SLASH name = false ->
  exists h t,
    Split (p ++ str1 SLASH ++ name)%string (str1 SLASH) = (h :: t) ++ [name].
Proof.
  intros Hname.
  induction p as [|c p IH].
  - exists EmptyString, [].
    change (EmptyString ++ str1 SLASH ++ name)%string with (String SLASH name).
    rewrite Split_slash, splitFrom_slash_cons, <- Split_slash, Ascii.eqb_refl.
    rewrite (split_slash_no_slash name Hname). reflexivity.
  - destruct IH as [h [t IH]].
    change (String c p ++ str1 SLASH ++ name)%string
      with (String c (p ++ str1 SLASH ++ name)%string).
    rewrite Split_slash, splitFrom_slash_cons, <- Split_slash, IH.
    destruct (Ascii.eqb c SLASH).
    + exists EmptyString, (h :: t). reflexivity.
    + exists (String c h), t. reflexivity.
Qed.

Lemma roleSessionNameOf_suffix (p name : string) :
  contains SLASH name = false ->
  roleSessionNameOf (p ++ str1 SLASH ++ name)%string = Some name.
Proof.
  intros Hname. unfold roleSessionNameOf.
  destruct (split_slash_suffix p name Hname) as [h [t Hs]].
  cbv zeta. rewrite Hs. apply index_last.
Qed.

Lemma roleSessionNameOf_last (arn : string) :
  exists init name,
    Split arn (str1 SLASH) = init ++ [name]
    /\ roleSessionNameOf arn = Some name.
Proof.
  destruct (split_slash_last arn) as [init [name [Hs _]]].
  exists init, name. split; [assumption|].
  unfold roleSessionNameOf. cbv zeta. rewrite Hs. apply index_last.
Qed.

(** ** Running the program symbolically *)

Lemma trace_record (e : Event) (w : World) :
  trace (record e w) = trace w ++ [e].
Proof. reflexivity. Qed.

Lemma trace_setFile (path content : string) (w : World) :
  trace (setFile path content w) = trace w.
Proof. reflexivity. Qed.

Lemma count_app (p : Event -> bool) (a b : list Event) :
  count p (a ++ b) = count p a + count p b.
Proof. unfold count. rewrite filter_app, length_app. reflexivity. Qed.

(** Unfold the program down to the answers of the environment. *)
Ltac unfold_program :=
  cbv [cycle targetStep refreshStep ensureSessionTokenProfile ensureTargetProfile
       writeProfileToFile validateSessionToken getSessionToken getTokenCode
       fetchTokenCode askForTokenCode assumeRole getCallerId die
       session_Must_NewSessionWithOptions svc_GetCallerIdentity
       svc_GetSessionToken svc_AssumeRole WriteProfile NewProfileWriter
       os_Create_file Fprintf time_Sleep printf call emit panic os_Exit
       bind ret negb].

(** Follow one more answer of the environment, or one more test. *)
Ltac case_on x :=
  lazymatch x with
  | context [match ?y with _ => _ end] => case_on y
  | _ => destruct x eqn:?
  end.

Ltac case_step :=
  match goal with
  | |- context [match ?x with _ => _ end] => case_on x
  end.

Ltac run_program := unfold_program; repeat (case_step; unfold_program).

(** Bring the trace of the final world to the form [trace w ++ events]. *)
Ltac normalize_trace :=
  cbn [finalWorld];
  repeat first [rewrite trace_record | rewrite trace_setFile];
  repeat rewrite <- app_assoc;
  cbn [app].

Lemma trace_nil (w : World) : trace w = trace w ++ [].
Proof. symmetry. apply app_nil_r. Qed.

Ltac trace_leaf :=
  eexists; split; [normalize_trace; first [reflexivity | apply trace_nil]|].

Lemma cycle_never_sleeps (E : Env) (config : SwampConfig) (pw : ProfileWriter)
    (baseProfile : string) :
  emits (fun e => isSleep e = false) (cycle E config pw baseProfile).
Proof.
  intros w. run_program; trace_leaf; repeat constructor.
Qed.

(** ** The role session name (swamp.go:133-137) *)

Lemma last_snoc {A : Type} (init : list A) (x d : A) :
  List.last (init ++ [x]) d = x.
Proof. apply last_last. Qed.

(** C3.  Whatever identity ARN the provider returns, the role session name
    that [ensureTargetProfile] hands to assume-role is the last piece of the
    ARN split on "/": it holds no "/", and it is the whole ARN or what follows
    the last "/" of it.  For an ARN that ends in "/alice" the name is
    "alice".  The assume-role call is the first thing that happens after the
    identity lookup, and it carries that name together with the configured
    role ARN and target duration. *)
Theorem role_session_name_is_last_segment
    (E : Env) (config : SwampConfig) (pw : ProfileWriter) (sess : Session)
    (w : World) (output : GetCallerIdentityOutput) (arn : string) :
  sts_GetCallerIdentity E sess w = Ok output ->
  Arn output = Some arn ->
  exists name,
    roleSessionNameOf arn = Some name
    /\ name = List.last (Split arn (str1 SLASH)) EmptyString
    /\ contains SLASH name = false
    /\ (arn = name \/ exists p, arn = (p ++ str1 SLASH ++ name)%string)
    /\ (forall p, arn = (p ++ "/alice")%string -> name = "alice")
    /\ exists res evs,
         trace (finalWorld (ensureTargetProfile E config pw sess w)) =
         trace w ++
           EvGetCallerIdentity sess (Ok output)
           :: EvAssumeRole sess
                {| ar_RoleArn := GetRoleArn E config;
                   ar_RoleSessionName := Some name;
                   ar_DurationSeconds := Some (targetDuration config) |} res
           :: evs.
Proof.
  intros Hid Harn.
  destruct (split_slash_last arn) as [init [name [Hsplit [Hname Hshape]]]].
  assert (Hrole : roleSessionNameOf arn = Some name).
  { unfold roleSessionNameOf. cbv zeta. rewrite Hsplit. apply index_last. }
  exists name. split; [exact Hrole|].
  split; [rewrite Hsplit, last_snoc; reflexivity|].
  split; [exact Hname|].
  split; [destruct Hshape as [[_ H]|[_ H]]; auto|].
  split.
  - intros p Hp.
    assert (Halice : roleSessionNameOf (p ++ str1 SLASH ++ "alice")%string = Some "alice")
      by (apply roleSessionNameOf_suffix; reflexivity).
    change (p ++ str1 SLASH ++ "alice")%string with (p ++ "/alice")%string in Halice.
    rewrite <- Hp, Hrole in Halice. congruence.
  - unfold_program. rewrite Hid, Harn, Hrole.
    repeat (case_step; unfold_program);
      eexists; eexists; normalize_trace; reflexivity.
Qed.

(** C10.  Splitting an ARN on "/" always yields at least one piece, so the
    index [len(parts)-1] is in range and the derivation returns a name for
    every ARN; [ensureTargetProfile] never panics on that index; and an ARN
    without "/" is its own session name. *)
Theorem role_session_name_total (arn : string) :
  (1 <= List.length (Split arn (str1 SLASH)))%nat
  /\ (exists name, roleSessionNameOf arn = Some name)
  /\ (contains SLASH arn = false -> roleSessionNameOf arn = Some arn)
  /\ (forall E config pw sess w w',
        ensureTargetProfile E config pw sess w <> Panic "index out of range" w').
Proof.
  destruct (roleSessionNameOf_last arn) as [init [name [Hsplit Hrole]]].
  split; [rewrite Hsplit, length_app; simpl; lia|].
  split; [exists name; exact Hrole|].
  split.
  - intros Hno. unfold roleSessionNameOf. cbv zeta.
    rewrite (split_slash_no_slash arn Hno). reflexivity.
  - intros E config pw sess w w'. run_program; try discriminate.
    match goal with
    | H : roleSessionNameOf ?s = None |- _ =>
        destruct (roleSessionNameOf_last s) as [? [? [_ Hsome]]]; congruence
    end.
Qed.

(** ** The MFA code (swamp.go:31-64) *)

(** C4, as the code has it.  [cleanTokenCode] strips the bytes of the cutset
    [" \r\n"] (space, carriage return, line feed) from both ends and nothing
    else: the result neither starts nor ends with such a byte, the raw string
    is the result between two runs of such bytes, and padding a raw string
    with such bytes on either side does not change the code.  The code that
    [getSessionToken] forwards to the provider is the cleaned answer of the
    MFA command or of the terminal. *)
Theorem token_code_stripped_of_cutset (raw : string) :
  (forall c, firstByte (cleanTokenCode raw) = Some c -> inCutset cutset c = false)
  /\ (forall c, lastByte (cleanTokenCode raw) = Some c -> inCutset cutset c = false)
  /\ (exists pre post,
        raw = (pre ++ cleanTokenCode raw ++ post)%string
        /\ allIn cutset pre = true /\ allIn cutset post = true)
  /\ (forall pre post,
        allIn cutset pre = true -> allIn cutset post = true ->
        cleanTokenCode (pre ++ raw ++ post)%string = cleanTokenCode raw)
  /\ (forall E config w code w',
        getTokenCode E config w = Ret code w' ->
        exists raw' pre,
          code = cleanTokenCode raw'
          /\ trace w' =
             pre ++ [if isEmpty (mfaExec config)
                     then EvReadString (Ok raw')
                     else EvExec (mfaExec config) (Ok raw')])
  /\ (forall E options config w,
      exists evs,
        trace (finalWorld (getSessionToken E options config w)) = trace w ++ evs
        /\ forall sess input res,
             In (EvGetSessionToken sess input res) evs ->
             exists raw',
               gst_TokenCode input = Some (cleanTokenCode raw')
               /\ (follows (EvExec (mfaExec config) (Ok raw'))
                           (EvGetSessionToken sess input res) evs
                   \/ follows (EvReadString (Ok raw'))
                              (EvGetSessionToken sess input res) evs)).
Proof.
  split; [intros c; apply Trim_first|].
  split; [intros c; apply Trim_last|].
  split; [apply Trim_decompose|].
  split; [intros pre post; apply Trim_padding|].
  split.
  - intros E config w code w'.
    run_program; intros H; inversion H; subst; clear H;
      eexists; eexists; (split; [reflexivity|]);
      rewrite trace_record; reflexivity.
  - intros E options config w.
    run_program; trace_leaf; intros sess input res Hin; cbn [In] in Hin;
      repeat (destruct Hin as [Hin|Hin]; try discriminate; try tauto);
      inversion Hin; subst; eexists; (split; [reflexivity|]);
      first [ left; eexists [_; _], _; reflexivity
            | right; eexists [_; _], _; reflexivity ].
Qed.

(** ** The session validity check (swamp.go:66-71) *)

(** C6, as the code has it.  Once the session for the profile and region
    is built, the check returns a boolean and nothing else: true exactly when
    the identity lookup succeeds, false for every error of the lookup.  When
    the session cannot be built, [session.Must] panics. *)
Theorem session_check_gate (E : Env) (options : Options) (w : World) :
  (forall rgn,
      session_NewSessionWithOptions E options w = Ok rgn ->
      let sess := {| sessOptions := options; sessRegion := rgn |} in
      let w1 := record (EvNewSession options (Ok sess)) w in
      let answer := sts_GetCallerIdentity E sess w1 in
      exists valid,
        validateSessionToken E options w
        = Ret valid (record (EvGetCallerIdentity sess answer) w1)
        /\ (valid = true <-> exists output, answer = Ok output)
        /\ (valid = false <-> exists err, answer = Err err))
  /\ (forall err,
        session_NewSessionWithOptions E options w = Err err ->
        validateSessionToken E options w
        = Panic err (record (EvNewSession options (Err err)) w)).
Proof.
  split.
  - intros rgn Hs. cbv zeta. unfold_program. rewrite Hs.
    destruct (sts_GetCallerIdentity E _ _) as [output|err] eqn:Hid.
    + exists true. split; [reflexivity|]. split; split; intros H.
      * exists output; reflexivity.
      * reflexivity.
      * discriminate.
      * destruct H; discriminate.
    + exists false. split; [reflexivity|]. split; split; intros H.
      * discriminate.
      * destruct H; discriminate.
      * exists err; reflexivity.
      * reflexivity.
  - intros err Hs. unfold_program. rewrite Hs. reflexivity.
Qed.

(** ** Start-up (swamp.go:153-174) *)

(** C9.  When [NewProfileWriter] fails, [main] writes the error and exits
    with status 1; between the start of the process and its end there is the
    failed initialisation and the error message, and so no provider call, no
    MFA command, no read of the terminal and no prompt. *)
Theorem profile_writer_failure_is_fatal_first
    (E : Env) (fuel : nat) (config : SwampConfig) (w : World) (err : Error) :
  Validate E config = None ->
  pw_NewProfileWriter E w = Err err ->
  main E fuel config w
  = Exit 1 (record (EvStderr ("Error initializing profile writer" ++ ": "
                              ++ err ++ str1 LF))
              (record (EvNewProfileWriter (Err err)) w))
  /\ exists evs,
       trace (finalWorld (main E fuel config w)) = trace w ++ evs
       /\ Forall (fun e => isProviderCall e = false
                          /\ isTokenAcquisition e = false
                          /\ isStdout e = false) evs.
Proof.
  intros Hv Hpw.
  assert (Hmain : main E fuel config w
                  = Exit 1 (record (EvStderr ("Error initializing profile writer" ++ ": "
                                              ++ err ++ str1 LF))
                              (record (EvNewProfileWriter (Err err)) w))).
  { unfold main. rewrite Hv. unfold_program. rewrite Hpw. reflexivity. }
  split; [exact Hmain|].
  rewrite Hmain. trace_leaf. repeat constructor.
Qed.

Lemma main_enters_loop (E : Env) (fuel : nat) (config : SwampConfig) (w : World)
    (pw : ProfileWriter) :
  Validate E config = None ->
  pw_NewProfileWriter E w = Ok pw ->
  main E fuel config w
  = forLoop E fuel config pw (baseProfileOf config)
      (record (EvNewProfileWriter (Ok pw)) w).
Proof.
  intros Hv Hpw. unfold main. rewrite Hv. unfold_program. rewrite Hpw. reflexivity.
Qed.

(** ** The export file (swamp.go:143-151) *)

Lemma countByte_append (c : ascii) (a b : string) :
  countByte c (a ++ b)%string = countByte c a + countByte c b.
Proof. induction a as [|d a IH]; simpl; [reflexivity|]. rewrite IH. lia. Qed.

Lemma countByte_absent (c : ascii) (s : string) :
  contains c s = false -> countByte c s = 0.
Proof.
  induction s as [|d s IH]; simpl; [reflexivity|].
  intros H. apply orb_false_iff in H. destruct H as [Hd Hs].
  rewrite Hd, (IH Hs). reflexivity.
Qed.

Lemma hasLines_count (text : string) (ls : list string) :
  hasLines text ls -> countByte LF text = List.length ls.
Proof.
  intros [Htext Hall]. subst text.
  induction Hall as [|l ls Hl _ IH]; [reflexivity|].
  cbn [unlines List.length].
  rewrite countByte_append, (countByte_absent _ _ Hl).
  change (countByte LF (str1 LF ++ unlines ls)%string)
    with (S (countByte LF (unlines ls))).
  rewrite IH. reflexivity.
Qed.

Lemma exportText_unlines (targetProfile : string) :
  exportText targetProfile = unlines (exportLines targetProfile).
Proof.
  unfold exportText, exportLines, unlines.
  rewrite !append_assoc. reflexivity.
Qed.

Lemma String_eqb_refl (s : string) : String.eqb s s = true.
Proof. apply String.eqb_refl. Qed.

Lemma substring_all (s : string) (n : nat) :
  String.length s <= n -> String.substring 0 n s = s.
Proof.
  revert n. induction s as [|c s IH]; intros n Hn.
  - destruct n; reflexivity.
  - destruct n as [|n]; [simpl in Hn; lia|].
    simpl. rewrite IH by (simpl in Hn; lia). reflexivity.
Qed.

(** C5, as the code has it.  When the export file can be created and the
    write to it gets through in full, the step returns and the file holds
    exactly the text
    [export AWS_PROFILE=<target>\nunset AWS_ACCESS_KEY_ID\nunset AWS_SECRET_ACCESS_KEY\n],
    whatever it held before; no other file changes.  That text is exactly
    three lines (set the profile, unset the access key, unset the secret
    key) when the target profile name holds no line feed. *)
Theorem export_file_rewritten_in_full (E : Env) (config : SwampConfig) (w : World) :
  os_Create E (exportFile config) w = None ->
  String.length (exportText (targetProfile config))
  <= file_Write E (exportFile config) (exportText (targetProfile config))
       (setFile (exportFile config) EmptyString
          (record (EvCreate (exportFile config) None) w)) ->
  exists w',
    writeProfileToFile E config w = Ret tt w'
    /\ files w' (exportFile config) = Some (exportText (targetProfile config))
    /\ (forall path, String.eqb path (exportFile config) = false ->
                     files w' path = files w path)
    /\ (contains LF (targetProfile config) = false ->
        hasLines (exportText (targetProfile config))
                 (exportLines (targetProfile config))).
Proof.
  intros Hc Hfull. unfold_program. rewrite Hc.
  eexists. split; [reflexivity|].
  cbn [files setFile record]. rewrite !String_eqb_refl.
  rewrite (substring_all _ _ Hfull).
  split; [reflexivity|]. split.
  - intros path Hp. rewrite Hp. reflexivity.
  - intros Hlf. split; [apply exportText_unlines|].
    unfold exportLines. repeat constructor.
    rewrite contains_append, Hlf. reflexivity.
Qed.

Lemma export_create_failure (E : Env) (config : SwampConfig) (w : World) (err : Error) :
  os_Create E (exportFile config) w = Some err ->
  exists w',
    writeProfileToFile E config w = Exit 1 w'
    /\ forall path, files w' path = files w path.
Proof.
  intros Hc. unfold_program. rewrite Hc.
  eexists. split; [reflexivity|]. reflexivity.
Qed.

(** ** The intermediate session step (swamp.go:105-114) *)





Ltac in_cases H :=
  cbn [In] in H;
  repeat (destruct H as [H|H]; try discriminate; try tauto).

Ltac find_in := cbn [In]; repeat first [left; reflexivity | right].

Lemma validateSessionToken_inv (E : Env) (options : Options) (w w1 : World)
    (valid : bool) :
  validateSessionToken E options w = Ret valid w1 ->
  exists rgn,
    session_NewSessionWithOptions E options w = Ok rgn
    /\ let sess := {| sessOptions := options; sessRegion := rgn |} in
       let w0 := record (EvNewSession options (Ok sess)) w in
       w1 = record (EvGetCallerIdentity sess (sts_GetCallerIdentity E sess w0)) w0
       /\ valid = match sts_GetCallerIdentity E sess w0 with
                  | Ok _ => true
                  | Err _ => false
                  end.
Proof.
  unfold_program.
  destruct (session_NewSessionWithOptions E options w) as [rgn|err];
    [|discriminate].
  intros H. inversion H. exists rgn. split; [reflexivity|].
  cbv zeta. split; reflexivity.
Qed.

Lemma cycle_after_check (E : Env) (config : SwampConfig) (pw : ProfileWriter)
    (baseProfile : string) (w w1 : World) (valid : bool) :
  isEmpty (tokenSerialNumber config) = false ->
  validateSessionToken E (getIntermediateSessionOptions config) w = Ret valid w1 ->
  cycle E config pw baseProfile w
  = ((if valid
      then printf ("Session token for profile " ++ profile config
                   ++ " is still valid" ++ str1 LF)
      else refreshStep E config pw) ;;
     targetStep E config pw baseProfile) w1.
Proof.
  intros Hmfa Hv.
  unfold cycle, targetStep, ensureSessionTokenProfile, refreshStep.
  rewrite Hmfa. cbn [negb]. unfold bind at 1 2 3. rewrite Hv.
  unfold bind at 5. destruct valid; reflexivity.
Qed.

(** C1.  With an MFA serial configured, when the validity check on the
    intermediate profile returns true, [ensureSessionTokenProfile] only
    prints that the session is still valid, and the cycle goes on with the
    role assumption from there.  In the whole cycle, however it ends, there
    is no session-token issuance, the MFA code is not asked for, and at most
    one profile is written, the one named by the target profile; so nothing
    is written under the intermediate profile name, the two names being
    different. *)
Theorem valid_session_skips_issuance
    (E : Env) (config : SwampConfig) (pw : ProfileWriter) (baseProfile : string)
    (w w1 : World) :
  isEmpty (tokenSerialNumber config) = false ->
  validateSessionToken E (getIntermediateSessionOptions config) w = Ret true w1 ->
  let w2 := record (EvStdout ("Session token for profile " ++ profile config
                              ++ " is still valid" ++ str1 LF)) w1 in
  ensureSessionTokenProfile E config pw w = Ret tt w2
  /\ (exists sess output,
        trace w2 = trace w ++
          [ EvNewSession (getIntermediateSessionOptions config) (Ok sess);
            EvGetCallerIdentity sess (Ok output);
            EvStdout ("Session token for profile " ++ profile config
                      ++ " is still valid" ++ str1 LF) ])
  /\ cycle E config pw baseProfile w = targetStep E config pw baseProfile w2
  /\ exists evs,
       trace (finalWorld (cycle E config pw baseProfile w)) = trace w ++ evs
       /\ Forall (fun e => isGetSessionToken e = false
                          /\ isTokenAcquisition e = false) evs
       /\ (forall cred name rgn res,
             In (EvWriteProfile cred name rgn res) evs ->
             name = targetProfile config)
       /\ count isWriteProfile evs <= 1
       /\ (targetProfile config <> intermediateProfile config ->
           forall cred rgn res,
             ~ In (EvWriteProfile cred (intermediateProfile config) rgn res) evs).
Proof.
  intros Hmfa Hv. cbv zeta.
  rewrite (cycle_after_check E config pw baseProfile w w1 true Hmfa Hv).
  assert (Hstep : ensureSessionTokenProfile E config pw w
                  = Ret tt (record (EvStdout ("Session token for profile "
                                              ++ profile config
                                              ++ " is still valid" ++ str1 LF)) w1)).
  { unfold ensureSessionTokenProfile, bind. rewrite Hv. reflexivity. }
  destruct (validateSessionToken_inv _ _ _ _ _ Hv) as [rgn [Hs Hw1]].
  cbv zeta in Hw1. destruct Hw1 as [Hw1 Hvalid].
  destruct (sts_GetCallerIdentity E _ _) as [output|err] eqn:Hid;
    [clear Hvalid|discriminate].
  split; [exact Hstep|].
  split; [subst w1; eexists; eexists; normalize_trace; reflexivity|].
  split; [reflexivity|].
  subst w1.
  run_program;
    trace_leaf;
    (split; [repeat constructor|]);
    (split; [intros cred name rgn' res Hin; in_cases Hin; congruence|]);
    (split; [unfold count; cbn; lia|]);
    intros Hne cred rgn' res Hin; in_cases Hin; inversion Hin; congruence.
Qed.


(** ** The role assumption (swamp.go:165-184, 130-141) *)


(** ** The renewal loop (swamp.go:175-194) *)

Lemma bind_ret_unit (m : M unit) (w : World) : (m ;; ret tt) w = m w.
Proof. unfold bind, ret. destruct (m w) as [[] w'| | |]; reflexivity. Qed.

Lemma cycle_not_running (E : Env) (config : SwampConfig) (pw : ProfileWriter)
    (baseProfile : string) (w w' : World) :
  cycle E config pw baseProfile w <> Running w'.
Proof. run_program; discriminate. Qed.

Lemma count_none (p : Event -> bool) (evs : list Event) :
  Forall (fun e => p e = false) evs -> count p evs = 0.
Proof.
  unfold count. induction 1 as [|e evs He _ IH]; [reflexivity|].
  simpl. rewrite He. exact IH.
Qed.

Lemma wrap64_small (z : Z) :
  (- 2 ^ 63 <= z < 2 ^ 63)%Z -> wrap64 z = z.
Proof.
  intros H. unfold wrap64.
  rewrite Z.mod_small by lia. lia.
Qed.

Lemma renewalDelay_seconds (config : SwampConfig) :
  (0 <= targetDuration config)%Z ->
  (Z.quot (targetDuration config) 2 * time_Second < 2 ^ 63)%Z ->
  renewalDelay config = (Z.quot (targetDuration config) 2 * time_Second)%Z.
Proof.
  intros Hpos Hfit. unfold renewalDelay.
  assert (Hq : (0 <= Z.quot (targetDuration config) 2)%Z)
    by (apply Z.quot_pos; lia).
  unfold time_Second in *.
  rewrite (wrap64_small (Z.quot (targetDuration config) 2)) by lia.
  rewrite wrap64_small by lia. lia.
Qed.

Section Loop.

Variables (E : Env) (config : SwampConfig) (pw : ProfileWriter) (baseProfile : string).

Lemma forLoop_once :
  renew config = false ->
  forall fuel w,
    forLoop E (S fuel) config pw baseProfile w = cycle E config pw baseProfile w.
Proof.
  intros Hr fuel w. cbn [forLoop]. rewrite Hr. cbn [negb].
  apply bind_ret_unit.
Qed.

Lemma forLoop_again :
  renew config = true ->
  forall fuel w,
    forLoop E (S fuel) config pw baseProfile w
    = (cycle E config pw baseProfile ;;
       time_Sleep (renewalDelay config) ;;
       forLoop E fuel config pw baseProfile) w.
Proof. intros Hr fuel w. cbn [forLoop]. rewrite Hr. reflexivity. Qed.

Lemma forLoop_sleeps :
  renew config = true ->
  forall fuel w,
  exists evs,
    trace (finalWorld (forLoop E fuel config pw baseProfile w)) = trace w ++ evs
    /\ Forall (fun e => isSleep e = true -> e = EvSleep (renewalDelay config)) evs
    /\ match forLoop E fuel config pw baseProfile w with
       | Running _ => count isSleep evs = fuel
       | _ => count isSleep evs < fuel
       end.
Proof.
  intros Hr fuel. induction fuel as [|fuel IH]; intros w.
  - exists []. split; [apply trace_nil|]. split; [constructor|reflexivity].
  - rewrite (forLoop_again Hr).
    destruct (cycle_never_sleeps E config pw baseProfile w) as [evs1 [Ht1 Hns]].
    pose proof (count_none _ _ Hns) as Hc1.
    assert (Hw1 : Forall (fun e => isSleep e = true -> e = EvSleep (renewalDelay config)) evs1).
    { eapply Forall_impl; [|exact Hns]. intros e He Hs. congruence. }
    unfold bind, time_Sleep, emit.
    destruct (cycle E config pw baseProfile w) as [[] w1|c w1|e w1|w1] eqn:Hcy;
      cbn [finalWorld] in Ht1.
    + destruct (IH (record (EvSleep (renewalDelay config)) w1)) as [evs2 [Ht2 [Hw2 Hm2]]].
      exists (evs1 ++ EvSleep (renewalDelay config) :: evs2).
      split.
      { rewrite Ht2, trace_record, Ht1, <- !app_assoc. reflexivity. }
      split.
      { apply Forall_app. split; [exact Hw1|]. constructor; [reflexivity|exact Hw2]. }
      rewrite count_app, Hc1.
      change (count isSleep (EvSleep (renewalDelay config) :: evs2))
        with (S (count isSleep evs2)).
      destruct (forLoop E fuel config pw baseProfile _); lia.
    + exists evs1. cbn [finalWorld]. repeat split; auto. lia.
    + exists evs1. cbn [finalWorld]. repeat split; auto. lia.
    + exfalso. exact (cycle_not_running _ _ _ _ _ _ Hcy).
Qed.

Lemma forLoop_never_returns :
  renew config = true ->
  forall fuel w w', forLoop E fuel config pw baseProfile w <> Ret tt w'.
Proof.
  intros Hr fuel. induction fuel as [|fuel IH]; intros w w'; [discriminate|].
  rewrite (forLoop_again Hr). unfold bind at 1.
  destruct (cycle E config pw baseProfile w); try discriminate.
  unfold bind, time_Sleep, emit. apply IH.
Qed.

Lemma forLoop_keeps_running :
  renew config = true ->
  (forall w, exists w', cycle E config pw baseProfile w = Ret tt w') ->
  forall fuel w, exists w', forLoop E fuel config pw baseProfile w = Running w'.
Proof.
  intros Hr Hcy fuel. induction fuel as [|fuel IH]; intros w.
  - exists w. reflexivity.
  - rewrite (forLoop_again Hr). unfold bind at 1.
    destruct (Hcy w) as [w1 Hw1]. rewrite Hw1.
    unfold bind, time_Sleep, emit. apply IH.
Qed.

(** C7.  With [renew] false the loop is one cycle: it ends as that cycle
    ends, and nowhere in it does the process sleep.  With [renew] true every
    cycle that returns is followed by a sleep of
    [time.Second * (targetDuration/2)], which is [targetDuration/2] seconds
    (integer division) for a duration that is not negative and fits the
    clock, and then by the loop again; the loop never returns, it only stops
    when a cycle exits or panics; after any number of iterations that many
    sleeps have happened and the loop is still running, and when no cycle
    fails this goes on for every number of iterations. *)
Theorem renewal_loop :
  (renew config = false ->
   forall fuel w,
     forLoop E (S fuel) config pw baseProfile w = cycle E config pw baseProfile w
     /\ exists evs,
          trace (finalWorld (forLoop E (S fuel) config pw baseProfile w))
          = trace w ++ evs
          /\ Forall (fun e => isSleep e = false) evs)
  /\ (renew config = true ->
      (forall fuel w,
          forLoop E (S fuel) config pw baseProfile w
          = (cycle E config pw baseProfile ;;
             time_Sleep (renewalDelay config) ;;
             forLoop E fuel config pw baseProfile) w)
      /\ ((0 <= targetDuration config)%Z ->
          (Z.quot (targetDuration config) 2 * time_Second < 2 ^ 63)%Z ->
          renewalDelay config = (Z.quot (targetDuration config) 2 * time_Second)%Z)
      /\ (forall fuel w w', forLoop E fuel config pw baseProfile w <> Ret tt w')
      /\ (forall fuel w,
          exists evs,
            trace (finalWorld (forLoop E fuel config pw baseProfile w))
            = trace w ++ evs
            /\ Forall (fun e => isSleep e = true ->
                                e = EvSleep (renewalDelay config)) evs
            /\ match forLoop E fuel config pw baseProfile w with
               | Running _ => count isSleep evs = fuel
               | _ => count isSleep evs < fuel
               end)
      /\ ((forall w, exists w', cycle E config pw baseProfile w = Ret tt w') ->
          forall fuel w,
          exists w', forLoop E fuel config pw baseProfile w = Running w')).
Proof.
  split.
  - intros Hr fuel w. rewrite (forLoop_once Hr).
    split; [reflexivity|]. apply cycle_never_sleeps.
  - intros Hr.
    split; [apply (forLoop_again Hr)|].
    split; [apply renewalDelay_seconds|].
    split; [apply (forLoop_never_returns Hr)|].
    split; [apply (forLoop_sleeps Hr)|].
    apply (forLoop_keeps_running Hr).
Qed.

End Loop.

(** ** The statements at explicit inputs *)

Module Runs.
Import Demo.

(** An MFA command that answers with a tab before the digits: the tab is
    white space, it is not in the cutset, and it reaches the provider; the
    same digits with and without the tab are two different codes. *)
Lemma tab_survives_cleaning :
  let raw := String TAB ("123456" ++ str1 LF) in
  let E := env raw sessionKeepsRegion identityAlways (Ok writer) in
  (exists w', getTokenCode E (config serial "admin" false) emptyWorld
              = Ret (String TAB "123456") w')
  /\ firstByte (cleanTokenCode raw) = Some TAB
  /\ isSpace TAB = true
  /\ cleanTokenCode (String TAB "123456") <> cleanTokenCode "123456".
Proof.
  cbv zeta. split; [eexists; reflexivity|].
  split; [reflexivity|]. split; [reflexivity|]. discriminate.
Qed.

Lemma token_code_stripped_of_cutset_run :
  allIn cutset (str1 SPACE) = true
  /\ allIn cutset (String CR (str1 LF)) = true
  /\ cleanTokenCode (str1 SPACE ++ "123456" ++ String CR (str1 LF))%string
     = cleanTokenCode "123456".
Proof.
  split; [reflexivity|]. split; [reflexivity|].
  exact (proj1 (proj2 (proj2 (proj2 (token_code_stripped_of_cutset "123456"))))
           (str1 SPACE) (String CR (str1 LF)) eq_refl eq_refl).
Defined.

(** A target profile name with a line feed in it: the export file has four
    lines, and its first line does not name the profile.  And a device with
    no room left: the file is created, the write gets nothing through, its
    error is dropped, and the step returns with an empty export file. *)
Lemma export_file_not_three_lines :
  (let cfg := config serial ("a" ++ str1 LF ++ "b") false in
   exists w',
     writeProfileToFile happy cfg usedWorld = Ret tt w'
     /\ files w' exportPath = Some (exportText (targetProfile cfg))
     /\ countByte LF (exportText (targetProfile cfg)) = 4
     /\ ~ hasLines (exportText (targetProfile cfg)) (exportLines (targetProfile cfg))
     /\ ~ exists l1 l2 l3, hasLines (exportText (targetProfile cfg)) [l1; l2; l3])
  /\ (let cfg := config serial "admin" false in
      exists w',
        writeProfileToFile Failing.diskFull cfg usedWorld = Ret tt w'
        /\ files w' exportPath = Some EmptyString
        /\ ~ hasLines EmptyString (exportLines (targetProfile cfg))
        /\ ~ exists l1 l2 l3, hasLines EmptyString [l1; l2; l3]).
Proof.
  cbv zeta. split.
  - eexists. split; [reflexivity|]. split; [reflexivity|].
    split; [reflexivity|]. split.
    + intros H. apply hasLines_count in H. discriminate.
    + intros [l1 [l2 [l3 H]]]. apply hasLines_count in H. discriminate.
  - eexists. split; [reflexivity|]. split; [reflexivity|]. split.
    + intros H. apply hasLines_count in H. discriminate.
    + intros [l1 [l2 [l3 H]]]. apply hasLines_count in H. discriminate.
Qed.

Lemma export_file_rewritten_in_full_run :
  os_Create happy (exportFile (config serial "admin" false)) usedWorld = None
  /\ String.length (exportText "admin")
     <= file_Write happy exportPath (exportText "admin")
          (setFile exportPath EmptyString
             (record (EvCreate exportPath None) usedWorld))
  /\ contains LF "admin" = false
  /\ files usedWorld exportPath = Some "export AWS_PROFILE=old-profile-left-here"
  /\ exists w',
       writeProfileToFile happy (config serial "admin" false) usedWorld = Ret tt w'
       /\ files w' exportPath = Some (exportText "admin")
       /\ hasLines (exportText "admin") (exportLines "admin").
Proof.
  split; [reflexivity|]. split; [apply le_n|].
  split; [reflexivity|]. split; [reflexivity|].
  destruct (export_file_rewritten_in_full happy (config serial "admin" false)
              usedWorld eq_refl (le_n _)) as [w' [Hrun [Hfile [_ Hlines]]]].
  exists w'. split; [exact Hrun|]. split; [exact Hfile|]. exact (Hlines eq_refl).
Defined.

(** Credentials files that cannot be loaded: the validity check does not
    return false, it panics. *)
Lemma broken_session_panics_the_check :
  let E := env rawToken sessionBroken identityAlways (Ok writer) in
  let options := getIntermediateSessionOptions (config serial "admin" false) in
  validateSessionToken E options emptyWorld
  = Panic "SharedConfigLoadError: failed to load config file"
      (record (EvNewSession options
                 (Err "SharedConfigLoadError: failed to load config file"))
         emptyWorld)
  /\ forall valid w', validateSessionToken E options emptyWorld <> Ret valid w'.
Proof.
  cbv zeta. split; [reflexivity|]. intros valid w'. discriminate.
Qed.

Lemma session_check_gate_run :
  let options := getIntermediateSessionOptions (config serial "admin" false) in
  session_NewSessionWithOptions expired options emptyWorld = Ok (Some "eu-west-1")
  /\ exists w', validateSessionToken expired options emptyWorld = Ret false w'.
Proof.
  cbv zeta. split; [reflexivity|].
  destruct (proj1 (session_check_gate expired
                     (getIntermediateSessionOptions (config serial "admin" false))
                     emptyWorld) (Some "eu-west-1") eq_refl)
    as [valid [Hrun [_ Hfalse]]].
  cbv zeta in Hrun, Hfalse.
  assert (Hv : valid = false) by (apply Hfalse; eexists; reflexivity).
  subst valid. eexists. exact Hrun.
Defined.



Lemma valid_session_skips_issuance_run :
  let cfg := config serial "admin" false in
  let w1 := finalWorld (validateSessionToken happy
                          (getIntermediateSessionOptions cfg) emptyWorld) in
  isEmpty (tokenSerialNumber cfg) = false
  /\ validateSessionToken happy (getIntermediateSessionOptions cfg) emptyWorld
     = Ret true w1
  /\ ensureSessionTokenProfile happy cfg writer emptyWorld
     = Ret tt (record (EvStdout ("Session token for profile " ++ profile cfg
                                 ++ " is still valid" ++ str1 LF)) w1).
Proof.
  cbv zeta. split; [reflexivity|]. split; [reflexivity|].
  exact (proj1 (valid_session_skips_issuance happy (config serial "admin" false)
                  writer "mfa" emptyWorld _ eq_refl eq_refl)).
Defined.


Lemma role_session_name_is_last_segment_run :
  let sess := {| sessOptions := newSessionOptions "default" "eu-west-1";
                 sessRegion := Some "eu-west-1" |} in
  sts_GetCallerIdentity happy sess emptyWorld = Ok alice
  /\ Arn alice = Some aliceArn
  /\ roleSessionNameOf aliceArn = Some "alice".
Proof.
  cbv zeta. split; [reflexivity|]. split; [reflexivity|].
  destruct (role_session_name_is_last_segment happy (config serial "admin" false)
              writer
              {| sessOptions := newSessionOptions "default" "eu-west-1";
                 sessRegion := Some "eu-west-1" |}
              emptyWorld alice aliceArn eq_refl eq_refl)
    as [name [Hname [_ [_ [_ [Halice _]]]]]].
  rewrite Hname. f_equal.
  apply (Halice "arn:aws:iam::123456789012:user"). reflexivity.
Defined.

Lemma role_session_name_total_run :
  contains SLASH "root" = false /\ roleSessionNameOf "root" = Some "root".
Proof.
  split; [reflexivity|].
  exact (proj1 (proj2 (proj2 (role_session_name_total "root"))) eq_refl).
Defined.

Lemma profile_writer_failure_is_fatal_first_run :
  let E := env rawToken sessionKeepsRegion identityAlways
             (Err "open /home/alice/.aws/credentials: permission denied") in
  let cfg := config serial "admin" true in
  Validate E cfg = None
  /\ pw_NewProfileWriter E emptyWorld
     = Err "open /home/alice/.aws/credentials: permission denied"
  /\ exists w', main E 5 cfg emptyWorld = Exit 1 w'.
Proof.
  cbv zeta. split; [reflexivity|]. split; [reflexivity|].
  eexists.
  exact (proj1 (profile_writer_failure_is_fatal_first
                  (env rawToken sessionKeepsRegion identityAlways
                     (Err "open /home/alice/.aws/credentials: permission denied"))
                  5 (config serial "admin" true) emptyWorld _ eq_refl eq_refl)).
Defined.

Lemma happy_cycle_returns (w : World) :
  exists w',
    cycle happy (config EmptyString "admin" true) writer "default" w = Ret tt w'.
Proof. eexists. reflexivity. Qed.

Lemma renewal_loop_run :
  renew (config EmptyString "admin" false) = false
  /\ renew (config EmptyString "admin" true) = true
  /\ forLoop happy 1 (config EmptyString "admin" false) writer "default" emptyWorld
     = cycle happy (config EmptyString "admin" false) writer "default" emptyWorld
  /\ renewalDelay (config EmptyString "admin" true) = (1800 * time_Second)%Z
  /\ exists w',
       forLoop happy 3 (config EmptyString "admin" true) writer "default" emptyWorld
       = Running w'.
Proof.
  split; [reflexivity|]. split; [reflexivity|].
  split.
  { exact (proj1 (proj1 (renewal_loop happy (config EmptyString "admin" false)
                           writer "default") eq_refl 0 emptyWorld)). }
  pose proof (proj2 (renewal_loop happy (config EmptyString "admin" true)
                       writer "default") eq_refl)
    as [_ [Hdelay [_ [_ Hgoes]]]].
  split.
  { apply Hdelay; [discriminate | reflexivity]. }
  exact (Hgoes happy_cycle_returns 3 emptyWorld).
Defined.

End Runs.

(** ** Further properties of the token code *)

Lemma TrimRight_fixed (cs s : string) :
  (forall c, lastByte s = Some c -> inCutset cs c = false) ->
  TrimRight s cs = s.
Proof.
  induction s as [|c s IH]; intros H; [reflexivity|].
  cbn [TrimRight]. destruct s as [|d r].
  - cbn. rewrite (H c eq_refl). reflexivity.
  - rewrite IH; [reflexivity|]. intros c' Hc'. apply H. exact Hc'.
Qed.

Lemma TrimLeft_fixed (cs s : string) :
  (forall c, firstByte s = Some c -> inCutset cs c = false) ->
  TrimLeft s cs = s.
Proof.
  destruct s as [|c s]; intros H; [reflexivity|].
  cbn. rewrite (H c eq_refl). reflexivity.
Qed.

Lemma allIn_append (cs a b : string) :
  allIn cs (a ++ b)%string = allIn cs a && allIn cs b.
Proof.
  induction a as [|c a IH]; [reflexivity|].
  cbn. rewrite IH. apply andb_assoc.
Qed.

(** X1.  Cleaning a token code twice is cleaning it once. *)
Theorem cleanTokenCode_idempotent (tokenCode : string) :
  cleanTokenCode (cleanTokenCode tokenCode) = cleanTokenCode tokenCode.
Proof.
  unfold cleanTokenCode. unfold Trim at 1.
  rewrite TrimRight_fixed by (intros c; apply Trim_last).
  apply TrimLeft_fixed. intros c; apply Trim_first.
Qed.

(** X2.  The cleaned code is empty exactly when the raw answer consists of
    spaces, carriage returns and line feeds only (the empty answer
    included); and nothing checks the code: whatever the MFA command or the
    terminal answers, blank or not, [getSessionToken] calls the provider with
    the cleaned answer. *)
Theorem blank_answer_gives_empty_code_and_is_forwarded (raw : string) :
  (cleanTokenCode raw = EmptyString <-> allIn cutset raw = true)
  /\ (forall E options config w rgn,
        session_NewSessionWithOptions E options w = Ok rgn ->
        let sess := {| sessOptions := options; sessRegion := rgn |} in
        let w1 := record (EvNewSession options (Ok sess)) w in
        (if isEmpty (mfaExec config)
         then stdin_ReadString E
                (record (EvStdout ("Enter mfa token for "
                                   ++ tokenSerialNumber config ++ ": ")) w1)
         else exec_Output E (mfaExec config)
                (record (EvStdout ("Obtaining mfa token for: "
                                   ++ tokenSerialNumber config ++ str1 LF)) w1))
        = Ok raw ->
        exists res,
          In (EvGetSessionToken sess
                {| gst_DurationSeconds := Some (intermediateDuration config);
                   gst_SerialNumber := Some (tokenSerialNumber config);
                   gst_TokenCode := Some (cleanTokenCode raw) |} res)
             (trace (finalWorld (getSessionToken E options config w)))).
Proof.
  split.
  - split; intros H.
    + destruct (Trim_decompose cutset raw) as [pre [post [Hraw [Hpre Hpost]]]].
      fold (cleanTokenCode raw) in Hraw. rewrite H in Hraw.
      rewrite Hraw. cbn [append]. rewrite allIn_append, Hpre, Hpost. reflexivity.
    + unfold cleanTokenCode, Trim. rewrite (TrimRight_all _ _ H). reflexivity.
  - intros E options config w rgn Hs. cbv zeta. unfold_program. rewrite Hs.
    destruct (isEmpty (mfaExec config)); cbv beta iota; intros Hraw; rewrite Hraw;
      case_step; eexists; normalize_trace; apply in_or_app; right; find_in.
Qed.

(** ** Further properties of the split on "/" *)

Lemma Split_slash_cons (c : ascii) (s : string) :
  Split (String c s) (str1 SLASH) =
  if Ascii.eqb c SLASH
  then EmptyString :: Split s (str1 SLASH)
  else match Split s (str1 SLASH) with
       | piece :: pieces => String c piece :: pieces
       | [] => [str1 c]
       end.
Proof. rewrite !Split_slash. apply splitFrom_slash_cons. Qed.

(** X3.  The pieces of an ARN split on "/" hold no "/", there is one more
    piece than there are "/" in the ARN, and joining them with "/" gives the
    ARN back. *)
Theorem split_on_slash_round_trip (arn : string) :
  Join (Split arn (str1 SLASH)) (str1 SLASH) = arn
  /\ Forall (fun piece => contains SLASH piece = false) (Split arn (str1 SLASH))
  /\ List.length (Split arn (str1 SLASH)) = S (countByte SLASH arn).
Proof.
  induction arn as [|c arn [Hjoin [Hfree Hlen]]].
  - repeat split. repeat constructor.
  - rewrite Split_slash_cons. cbn [countByte].
    destruct (Ascii.eqb c SLASH) eqn:Hc.
    + apply Ascii.eqb_eq in Hc. subst c.
      split; [|split].
      * destruct (Split arn (str1 SLASH)) as [|p ps] eqn:Hs; [discriminate|].
        change (Join (EmptyString :: p :: ps) (str1 SLASH))
          with (String SLASH (Join (p :: ps) (str1 SLASH))).
        rewrite Hjoin. reflexivity.
      * constructor; [reflexivity|exact Hfree].
      * cbn [List.length]. rewrite Hlen. reflexivity.
    + destruct (Split arn (str1 SLASH)) as [|p ps] eqn:Hs; [discriminate|].
      split; [|split].
      * rewrite <- Hjoin. destruct ps; reflexivity.
      * inversion Hfree; subst. constructor; [|assumption].
        cbn [contains]. rewrite Hc. assumption.
      * cbn [List.length] in *. rewrite Hlen. reflexivity.
Qed.

Lemma lastByte_append_byte (p : string) (c : ascii) :
  lastByte (p ++ str1 c)%string = Some c.
Proof.
  induction p as [|d p IH]; [reflexivity|].
  cbn [append lastByte]. rewrite IH.
  destruct (p ++ str1 c)%string eqn:Hp; [|reflexivity].
  destruct p; discriminate.
Qed.

Lemma lastByte_split (s : string) (c : ascii) :
  lastByte s = Some c -> exists p, s = (p ++ str1 c)%string.
Proof.
  induction s as [|d s IH]; [discriminate|].
  destruct s as [|d' s'].
  - cbn. intros H. inversion H. exists EmptyString. reflexivity.
  - intros H. destruct (IH H) as [p Hp]. exists (String d p).
    cbn [append]. rewrite <- Hp. reflexivity.
Qed.

(** X4.  The role session name is empty exactly when the identity ARN is
    empty or ends in "/". *)
Theorem empty_session_name_iff_trailing_slash (arn : string) :
  roleSessionNameOf arn = Some EmptyString
  <-> (arn = EmptyString \/ lastByte arn = Some SLASH).
Proof.
  split.
  - intros H.
    destruct (split_slash_last arn) as [init [name [Hsplit [_ Hshape]]]].
    assert (Hname : roleSessionNameOf arn = Some name).
    { unfold roleSessionNameOf. cbv zeta. rewrite Hsplit. apply index_last. }
    rewrite H in Hname. inversion Hname; subst name.
    destruct Hshape as [[_ Harn]|[_ [p Harn]]]; [left; exact Harn|].
    right. rewrite Harn. apply lastByte_append_byte.
  - intros [Harn|Hlast].
    + subst arn. reflexivity.
    + destruct (lastByte_split _ _ Hlast) as [p Hp]. rewrite Hp.
      apply (roleSessionNameOf_suffix p EmptyString). reflexivity.
Qed.

(** ** Reading properties off the trace *)

Lemma eachWithRest_sound (P : Event -> list Event -> Prop) (evs : list Event) :
  eachWithRest P evs ->
  forall pre e post, evs = pre ++ e :: post -> P e post.
Proof.
  intros H pre. revert evs H.
  induction pre as [|x pre IH]; intros evs H e post Heq; subst evs.
  - exact (proj1 H).
  - exact (IH _ (proj2 H) _ _ eq_refl).
Qed.

Lemma eachWithPrevious_sound (P : option Event -> Event -> Prop) (evs : list Event) :
  forall prev,
    eachWithPrevious P prev evs ->
    forall pre e post, evs = pre ++ e :: post -> P (lastEvent prev pre) e.
Proof.
  intros prev H pre. revert evs prev H.
  induction pre as [|x pre IH]; intros evs prev H e post Heq; subst evs.
  - exact (proj1 H).
  - exact (IH _ _ (proj2 H) _ _ eq_refl).
Qed.

Lemma lastEvent_snoc (pre : list Event) (x : Event) :
  lastEvent None pre = Some x -> exists pre', pre = pre' ++ [x].
Proof.
  induction pre as [|y pre' _] using rev_ind; [discriminate|].
  unfold lastEvent. rewrite fold_left_app. cbn.
  intros H. inversion H. exists pre'. reflexivity.
Qed.

(** Every event of the class [A] comes right after an event that stands in
    the relation [J] to it. *)
Lemma preceded_sound (A : Event -> bool) (J : Event -> Event -> Prop)
    (evs : list Event) :
  eachWithPrevious
    (fun prev e => A e = true -> exists prior, prev = Some prior /\ J prior e)
    None evs ->
  forall pre e post,
    evs = pre ++ e :: post -> A e = true ->
    exists pre' prior, pre = pre' ++ [prior] /\ J prior e.
Proof.
  intros H pre e post Heq HA.
  destruct (eachWithPrevious_sound _ _ _ H _ _ _ Heq HA) as [prior [Hlast HJ]].
  destruct (lastEvent_snoc _ _ Hlast) as [pre' Hpre].
  exists pre', prior. split; assumption.
Qed.

(** Discharge a check on every event of an explicit trace. *)
Ltac each_event tac :=
  cbn [eachWithPrevious eachWithRest];
  repeat split; intros; try discriminate; tac.

(** ** Further properties of the role assumption *)

(** X5.  [ensureTargetProfile] stops before the assume-role call when the
    identity is of no use: a failed lookup is fatal with the message
    "Error fetching caller id", and an answer without ARN panics; in both
    cases the lookup is the only call made. *)
Theorem unusable_identity_stops_before_assume_role
    (E : Env) (config : SwampConfig) (pw : ProfileWriter) (sess : Session)
    (w : World) :
  (forall err,
      sts_GetCallerIdentity E sess w = Err err ->
      ensureTargetProfile E config pw sess w
      = Exit 1 (record (EvStderr ("Error fetching caller id" ++ ": " ++ err
                                  ++ str1 LF))
                  (record (EvGetCallerIdentity sess (Err err)) w)))
  /\ (forall output,
        sts_GetCallerIdentity E sess w = Ok output ->
        Arn output = None ->
        exists msg,
          ensureTargetProfile E config pw sess w
          = Panic msg (record (EvGetCallerIdentity sess (Ok output)) w)).
Proof.
  split.
  - intros err H. unfold_program. rewrite H. reflexivity.
  - intros output H Harn. unfold_program. rewrite H, Harn.
    eexists. reflexivity.
Qed.

(** ** Further properties of a cycle *)

(** X6.  No error is survived and none is retried: in a cycle, a failed MFA
    command, terminal read, session-token issuance, role assumption, profile
    write or creation of the export file is followed by the error message
    and nothing else, and the cycle exits with status 1.  Every exit of a
    cycle has status 1 and the error message as the last thing done. *)
Theorem failed_call_ends_the_cycle
    (E : Env) (config : SwampConfig) (pw : ProfileWriter) (baseProfile : string)
    (w : World) :
  exists evs,
    trace (finalWorld (cycle E config pw baseProfile w)) = trace w ++ evs
    /\ (forall pre e post,
          evs = pre ++ e :: post -> isFatalFailure e = true ->
          (exists msg, post = [EvStderr msg])
          /\ exists w', cycle E config pw baseProfile w = Exit 1 w')
    /\ (forall c w',
          cycle E config pw baseProfile w = Exit c w' ->
          c = 1%Z /\ exists pre msg, evs = pre ++ [EvStderr msg]).
Proof.
  run_program; trace_leaf;
    (split;
     [ intros evsBefore theEvent evsAfter HsplitEvs Hfatal;
       split;
       [ refine (eachWithRest_sound
                   (fun e rest => isFatalFailure e = true ->
                                  exists msg, rest = [EvStderr msg])
                   _ _ _ _ _ HsplitEvs Hfatal);
         each_event ltac:(eexists; reflexivity)
       | first
           [ eexists; reflexivity
           | exfalso;
             refine (eachWithRest_sound
                       (fun e _ => isFatalFailure e = true -> False)
                       _ _ _ _ _ HsplitEvs Hfatal);
             each_event idtac ] ]
     | intros exitCode exitWorld Hexits;
       first [discriminate | inversion Hexits; subst; split; [reflexivity|] ];
       first [ eexists [], _; reflexivity
             | eexists [_], _; reflexivity
             | eexists [_; _], _; reflexivity
             | eexists [_; _; _], _; reflexivity
             | eexists [_; _; _; _], _; reflexivity
             | eexists [_; _; _; _; _], _; reflexivity
             | eexists [_; _; _; _; _; _], _; reflexivity
             | eexists [_; _; _; _; _; _; _], _; reflexivity
             | eexists [_; _; _; _; _; _; _; _], _; reflexivity
             | eexists [_; _; _; _; _; _; _; _; _], _; reflexivity
             | eexists [_; _; _; _; _; _; _; _; _; _], _; reflexivity
             | eexists [_; _; _; _; _; _; _; _; _; _; _], _; reflexivity
             | eexists [_; _; _; _; _; _; _; _; _; _; _; _], _; reflexivity ] ]).
Qed.

(** X7.  Nothing is written to the profile store that the provider did not
    just return: in a cycle, every profile write comes right after a
    successful session-token issuance, and then writes the issued credentials
    under the intermediate profile name with the configured region, or right
    after a successful role assumption, and then writes the assumed
    credentials under the target profile name with the region of the session
    the role was assumed on.  A cycle writes at most two profiles. *)
Theorem profile_writes_come_from_the_provider
    (E : Env) (config : SwampConfig) (pw : ProfileWriter) (baseProfile : string)
    (w : World) :
  exists evs,
    trace (finalWorld (cycle E config pw baseProfile w)) = trace w ++ evs
    /\ (forall pre e post,
          evs = pre ++ e :: post -> isWriteProfile e = true ->
          exists pre' prior, pre = pre' ++ [prior] /\ writeComesFrom config prior e)
    /\ count isWriteProfile evs <= 2.
Proof.
  run_program; trace_leaf;
    (split;
     [ apply preceded_sound;
       each_event ltac:(eexists; split; [reflexivity|];
                        first [ left; do 4 eexists; split; reflexivity
                              | right; do 4 eexists; split; reflexivity ])
     | unfold count; cbn; lia ]).
Qed.

(** X8.  The export file is only touched once the target profile is
    written: in a cycle, the export file is created right after a successful
    write of the target profile and at no other moment, it is the only path
    ever created, and the only text ever written is the export text, right
    after the file was created. *)
Theorem export_comes_after_the_target_profile
    (E : Env) (config : SwampConfig) (pw : ProfileWriter) (baseProfile : string)
    (w : World) :
  exists evs,
    trace (finalWorld (cycle E config pw baseProfile w)) = trace w ++ evs
    /\ (forall pre e post,
          evs = pre ++ e :: post -> isCreate e || isWrite e = true ->
          exportProfile config = true
          /\ exists pre' prior,
               pre = pre' ++ [prior] /\ exportComesAfter config prior e).
Proof.
  run_program; trace_leaf;
    intros evsBefore theEvent evsAfter HsplitEvs Hclass;
    (split;
     [ revert Hclass;
       refine (eachWithRest_sound
                 (fun e _ => isCreate e || isWrite e = true -> _ = true)
                 _ _ _ _ _ HsplitEvs);
       each_event ltac:(reflexivity)
     | revert evsBefore theEvent evsAfter HsplitEvs Hclass;
       apply preceded_sound;
       each_event ltac:(eexists; split; [reflexivity|];
                        first [ left; do 3 eexists; split; reflexivity
                              | right; split; reflexivity ]) ]).
Qed.

(** X9.  The provider is only ever called on sessions of the base profile
    or of the intermediate profile, with the configured region: a cycle
    started the way [main] starts it builds at most three sessions, each from
    one of these two sets of options, and without an MFA serial it builds one
    session, from the base profile.  So no session is built from the target
    profile when its name differs from the names of the other two. *)
Theorem sessions_use_base_or_intermediate_profile
    (E : Env) (config : SwampConfig) (pw : ProfileWriter) (w : World) :
  exists evs,
    trace (finalWorld (cycle E config pw (baseProfileOf config) w)) = trace w ++ evs
    /\ (forall options res,
          In (EvNewSession options res) evs ->
          options = getBaseSessionOptions config
          \/ (isEmpty (tokenSerialNumber config) = false
              /\ options = getIntermediateSessionOptions config))
    /\ count isNewSession evs <= 3
    /\ (isEmpty (tokenSerialNumber config) = true -> count isNewSession evs = 1)
    /\ (targetProfile config <> profile config ->
        targetProfile config <> intermediateProfile config ->
        forall options res,
          In (EvNewSession options res) evs ->
          Profile options <> targetProfile config).
Proof.
  unfold baseProfileOf.
  run_program; trace_leaf;
    (split;
     [ intros options0 res0 Hin0; in_cases Hin0; inversion Hin0; subst;
       first [ left; reflexivity | right; split; reflexivity ]
     | split; [unfold count; cbn; lia|];
       split;
       [ intros Hserial0; first [discriminate | reflexivity]
       | intros Hbase0 Hinter0 options0 res0 Hin0; in_cases Hin0;
         inversion Hin0; subst;
         cbn [Profile newSessionOptions getBaseSessionOptions
                getIntermediateSessionOptions];
         intros Hsame0; congruence ] ]).
Qed.

(** X10.  The operator is asked for at most one MFA code per cycle, and
    only when an MFA serial is configured; the code comes from the MFA
    command when one is configured and from the terminal otherwise, never
    from both, and the line announcing the request is printed right before. *)
Theorem one_code_per_cycle_from_the_configured_source
    (E : Env) (config : SwampConfig) (pw : ProfileWriter) (baseProfile : string)
    (w : World) :
  exists evs,
    trace (finalWorld (cycle E config pw baseProfile w)) = trace w ++ evs
    /\ (forall pre e post,
          evs = pre ++ e :: post -> isTokenAcquisition e = true ->
          exists pre' prior,
            pre = pre' ++ [prior] /\ acquisitionAnnounced config prior e)
    /\ count isTokenAcquisition evs <= 1
    /\ (isEmpty (tokenSerialNumber config) = true ->
        count isTokenAcquisition evs = 0).
Proof.
  run_program; trace_leaf;
    (split;
     [ apply preceded_sound;
       each_event ltac:(eexists; split; [reflexivity|];
                        first [ left; split; [assumption|];
                                split; [reflexivity|]; eexists; reflexivity
                              | right; split; [assumption|];
                                split; [reflexivity|]; eexists; reflexivity ])
     | split; [unfold count; cbn; lia
              | intros Hserial0; first [discriminate | reflexivity] ] ]).
Qed.

(** ** Whole runs *)

Lemma substring_prefix (s : string) (n : nat) :
  String.prefix (String.substring 0 n s) s = true.
Proof.
  revert n. induction s as [|c s IH]; intros n.
  - destruct n; reflexivity.
  - destruct n as [|n]; [reflexivity|].
    simpl. destruct (ascii_dec c c) as [_|Hne]; [apply IH | congruence].
Qed.

(** What a file just created holds. *)
Ltac files_facts :=
  repeat match goal with
         | H : files (setFile _ _ _) _ = _ |- _ =>
             cbn [files setFile record] in H;
             rewrite String_eqb_refl in H;
             inversion H; subst; clear H
         end.

(** X11.  A run without MFA serial, without renewal and with export that
    returns has done exactly this, in this order: opened the profile writer,
    built one session from the base profile, looked the caller up, assumed
    the role once under the last piece of the caller's ARN, written the
    target profile once, created the export file and written the export text
    to it.  It has not slept.  The export file holds what of the export text
    the write got through, all of it when writes do not fall short. *)
Theorem plain_run_end_to_end
    (E : Env) (fuel : nat) (config : SwampConfig) (w w' : World) :
  Validate E config = None ->
  isEmpty (tokenSerialNumber config) = true ->
  renew config = false ->
  exportProfile config = true ->
  main E (S fuel) config w = Ret tt w' ->
  exists pw rgn output arn name role,
    let sess := {| sessOptions := getBaseSessionOptions config;
                   sessRegion := rgn |} in
    Arn output = Some arn
    /\ roleSessionNameOf arn = Some name
    /\ trace w' = trace w ++
         [ EvNewProfileWriter (Ok pw);
           EvNewSession (getBaseSessionOptions config) (Ok sess);
           EvGetCallerIdentity sess (Ok output);
           EvAssumeRole sess
             {| ar_RoleArn := GetRoleArn E config;
                ar_RoleSessionName := Some name;
                ar_DurationSeconds := Some (targetDuration config) |} (Ok role);
           EvWriteProfile (ar_Credentials role) (targetProfile config) rgn None;
           EvCreate (exportFile config) None;
           EvWrite (exportFile config) (exportText (targetProfile config)) ]
    /\ (exists written,
          files w' (exportFile config) = Some written
          /\ String.prefix written (exportText (targetProfile config)) = true)
    /\ ((forall path text u, String.length text <= file_Write E path text u) ->
        files w' (exportFile config) = Some (exportText (targetProfile config))).
Proof.
  intros Hv Hserial Hrenew Hexport.
  unfold main, baseProfileOf. rewrite Hv, Hserial. cbn [negb forLoop].
  rewrite Hrenew. unfold cycle. rewrite Hserial, Hexport. cbn [negb].
  run_program; intros Hret;
    first
      [ discriminate
      | solve [files_facts]
      | inversion Hret; subst; clear Hret; files_facts;
        do 6 eexists; cbv zeta;
        split; [eassumption|];
        split; [eassumption|];
        split; [normalize_trace; reflexivity|];
        cbn [files setFile record]; rewrite !String_eqb_refl;
        split;
        [ eexists; split; [reflexivity|];
          match goal with
          | |- context [file_Write E ?p ?t ?u] =>
              exact (substring_prefix t (file_Write E p t u))
          end
        | intros Hfull;
          match goal with
          | |- context [file_Write E ?p ?t ?u] =>
              exact (f_equal Some (substring_all t (file_Write E p t u)
                                     (Hfull p t u)))
          end ] ].
Qed.

(** X12.  A cycle that finds the intermediate session invalid and returns
    has, after the check, done exactly this, in this order: built a session
    from the base profile, announced and obtained one MFA code, issued one
    session token with the cleaned code, written the intermediate profile,
    and only then built the session for the role assumption, looked the
    caller up, assumed the role, written the target profile, and exported if
    asked to: two profile writes, the intermediate one first. *)
Theorem refresh_cycle_end_to_end
    (E : Env) (config : SwampConfig) (pw : ProfileWriter) (baseProfile : string)
    (w w1 w' : World) :
  isEmpty (tokenSerialNumber config) = false ->
  validateSessionToken E (getIntermediateSessionOptions config) w = Ret false w1 ->
  cycle E config pw baseProfile w = Ret tt w' ->
  exists rgn0 raw token rgn output arn name role,
    let sess0 := {| sessOptions := getBaseSessionOptions config;
                    sessRegion := rgn0 |} in
    let sess := {| sessOptions := newSessionOptions baseProfile (region config);
                   sessRegion := rgn |} in
    Arn output = Some arn
    /\ roleSessionNameOf arn = Some name
    /\ trace w' = trace w1 ++
         [ EvNewSession (getBaseSessionOptions config) (Ok sess0) ]
         ++ (if isEmpty (mfaExec config)
             then [ EvStdout ("Enter mfa token for "
                              ++ tokenSerialNumber config ++ ": ");
                    EvReadString (Ok raw) ]
             else [ EvStdout ("Obtaining mfa token for: "
                              ++ tokenSerialNumber config ++ str1 LF);
                    EvExec (mfaExec config) (Ok raw) ])
         ++ [ EvGetSessionToken sess0
                {| gst_DurationSeconds := Some (intermediateDuration config);
                   gst_SerialNumber := Some (tokenSerialNumber config);
                   gst_TokenCode := Some (cleanTokenCode raw) |} (Ok token);
              EvWriteProfile (gst_Credentials token) (intermediateProfile config)
                (Some (region config)) None;
              EvNewSession (newSessionOptions baseProfile (region config)) (Ok sess);
              EvGetCallerIdentity sess (Ok output);
              EvAssumeRole sess
                {| ar_RoleArn := GetRoleArn E config;
                   ar_RoleSessionName := Some name;
                   ar_DurationSeconds := Some (targetDuration config) |} (Ok role);
              EvWriteProfile (ar_Credentials role) (targetProfile config)
                rgn None ]
         ++ (if exportProfile config
             then [ EvCreate (exportFile config) None;
                    EvWrite (exportFile config) (exportText (targetProfile config)) ]
             else []).
Proof.
  intros Hmfa Hv.
  rewrite (cycle_after_check E config pw baseProfile w w1 false Hmfa Hv).
  run_program; intros Hret;
    first
      [ discriminate
      | inversion Hret; subst; clear Hret;
        do 8 eexists; cbv zeta;
        split; [eassumption|];
        split; [eassumption|];
        normalize_trace; reflexivity ].
Qed.

(** ** Exit status *)

Lemma cycle_exit_status (E : Env) (config : SwampConfig) (pw : ProfileWriter)
    (baseProfile : string) (w : World) (code : Z) (w' : World) :
  cycle E config pw baseProfile w = Exit code w' ->
  code = 1%Z /\ exists pre msg, trace w' = pre ++ [EvStderr msg].
Proof.
  run_program; intros Hexits;
    first [ discriminate
          | inversion Hexits; subst; split; [reflexivity|];
            rewrite trace_record; eexists; eexists; reflexivity ].
Qed.

Lemma forLoop_exit_status (E : Env) (config : SwampConfig) (pw : ProfileWriter)
    (baseProfile : string) (fuel : nat) :
  forall (w : World) (code : Z) (w' : World),
    forLoop E fuel config pw baseProfile w = Exit code w' ->
    code = 1%Z /\ exists pre msg, trace w' = pre ++ [EvStderr msg].
Proof.
  induction fuel as [|fuel IH]; intros w code w'; [discriminate|].
  cbn [forLoop]. unfold bind at 1.
  destruct (cycle E config pw baseProfile w) as [[] w1|c w1|e w1|w1] eqn:Hcycle;
    try discriminate.
  - destruct (negb (renew config)); [discriminate|].
    unfold bind, time_Sleep, emit. apply IH.
  - intros H. inversion H; subst.
    exact (cycle_exit_status _ _ _ _ _ _ _ Hcycle).
Qed.

(** X13.  Every exit that swamp.go itself makes, from the parsed flags on,
    has status 1, and the last thing done before it was to write the error
    message or, after a configuration that does not validate, the usage text;
    this holds in the first cycle and in every renewal.  (The flag parser
    before that, a return of [main] and a panic end the process in their own
    ways and are not exits of this kind.) *)
Theorem exits_of_swamp_have_status_one
    (E : Env) (fuel : nat) (config : SwampConfig) (w : World) (code : Z)
    (w' : World) :
  main E fuel config w = Exit code w' ->
  code = 1%Z
  /\ exists pre e, trace w' = pre ++ [e] /\ (isStderr e = true \/ e = EvUsage).
Proof.
  unfold main. destruct (Validate E config) as [err|].
  - unfold_program. intros H. inversion H; subst. split; [reflexivity|].
    rewrite trace_record. eexists; eexists. split; [reflexivity|]. right; reflexivity.
  - unfold bind at 1, NewProfileWriter, call. cbv zeta.
    destruct (pw_NewProfileWriter E w) as [pw|err].
    + intros H. destruct (forLoop_exit_status _ _ _ _ _ _ _ _ H) as [Hc [pre [msg Ht]]].
      split; [exact Hc|]. exists pre, (EvStderr msg).
      split; [exact Ht|]. left; reflexivity.
    + unfold_program. intros H. inversion H; subst. split; [reflexivity|].
      rewrite trace_record. eexists; eexists. split; [reflexivity|]. left; reflexivity.
Qed.

(** ** The write to the export file *)

(** X14.  The error of the write to the export file is dropped.  When the
    export file can be created, the step returns normally whatever becomes of
    the write: no message, no exit.  What the file held before is gone, and
    it holds the part of the export text that the write got through, which is
    nothing at all when no byte was written. *)
Theorem export_write_error_is_dropped (E : Env) (config : SwampConfig) (w : World) :
  os_Create E (exportFile config) w = None ->
  let written :=
    String.substring 0
      (file_Write E (exportFile config) (exportText (targetProfile config))
         (setFile (exportFile config) EmptyString
            (record (EvCreate (exportFile config) None) w)))
      (exportText (targetProfile config)) in
  exists w',
    writeProfileToFile E config w = Ret tt w'
    /\ trace w' = trace w ++
         [ EvCreate (exportFile config) None;
           EvWrite (exportFile config) (exportText (targetProfile config)) ]
    /\ files w' (exportFile config) = Some written
    /\ String.prefix written (exportText (targetProfile config)) = true
    /\ (file_Write E (exportFile config) (exportText (targetProfile config))
          (setFile (exportFile config) EmptyString
             (record (EvCreate (exportFile config) None) w)) = 0 ->
        files w' (exportFile config) = Some EmptyString).
Proof.
  intros Hc. cbv zeta. unfold_program. rewrite Hc.
  eexists. split; [reflexivity|].
  split; [normalize_trace; reflexivity|].
  cbn [files setFile record]. rewrite !String_eqb_refl. cbn [append].
  split; [reflexivity|].
  split; [apply substring_prefix|].
  intros Hnone. rewrite Hnone. reflexivity.
Qed.

(** ** The further properties at explicit inputs *)

Module MoreRuns.
Import Demo Failing.

Lemma blank_answer_gives_empty_code_and_is_forwarded_run :
  allIn cutset blank = true
  /\ cleanTokenCode blank = EmptyString
  /\ exists res,
       In (EvGetSessionToken baseSession
             {| gst_DurationSeconds := Some 43200%Z;
                gst_SerialNumber := Some serial;
                gst_TokenCode := Some (cleanTokenCode blank) |} res)
          (trace (finalWorld (getSessionToken blankAnswer
                                (getBaseSessionOptions withMfa) withMfa emptyWorld))).
Proof.
  split; [reflexivity|].
  split.
  - exact (proj2 (proj1 (blank_answer_gives_empty_code_and_is_forwarded blank)) eq_refl).
  - exact (proj2 (blank_answer_gives_empty_code_and_is_forwarded blank)
             blankAnswer (getBaseSessionOptions withMfa) withMfa emptyWorld
             (Some "eu-west-1") eq_refl eq_refl).
Defined.

Lemma empty_session_name_iff_trailing_slash_run :
  lastByte "arn:aws:iam::123456789012:user/" = Some SLASH
  /\ roleSessionNameOf "arn:aws:iam::123456789012:user/" = Some EmptyString.
Proof.
  split; [reflexivity|].
  exact (proj2 (empty_session_name_iff_trailing_slash
                  "arn:aws:iam::123456789012:user/") (or_intror eq_refl)).
Defined.

Lemma unusable_identity_stops_before_assume_role_run :
  sts_GetCallerIdentity unknownCaller baseSession emptyWorld
  = Err "InvalidClientTokenId: the security token is invalid"
  /\ (exists w', ensureTargetProfile unknownCaller plain writer baseSession emptyWorld
                 = Exit 1 w')
  /\ Arn {| Account := None; Arn := None; UserId := None |} = None
  /\ (exists msg w', ensureTargetProfile namelessCaller plain writer baseSession
                       emptyWorld = Panic msg w').
Proof.
  split; [reflexivity|]. split.
  - eexists.
    exact (proj1 (unusable_identity_stops_before_assume_role unknownCaller plain
                    writer baseSession emptyWorld) _ eq_refl).
  - split; [reflexivity|].
    destruct (proj2 (unusable_identity_stops_before_assume_role namelessCaller plain
                       writer baseSession emptyWorld) _ eq_refl eq_refl)
      as [msg Hpanic].
    exists msg. eexists. exact Hpanic.
Defined.

Lemma failed_call_ends_the_cycle_run :
  exists w', cycle denied plain writer "default" emptyWorld = Exit 1 w'.
Proof.
  destruct (failed_call_ends_the_cycle denied plain writer "default" emptyWorld)
    as [evs [Htrace [Hfatal _]]].
  change (trace emptyWorld ++ evs) with evs in Htrace.
  assert (Hsplit : evs = firstn 2 evs ++ nth 2 evs EvUsage :: skipn 3 evs)
    by (rewrite <- Htrace; reflexivity).
  assert (Hfails : isFatalFailure (nth 2 evs EvUsage) = true)
    by (rewrite <- Htrace; reflexivity).
  exact (proj2 (Hfatal _ _ _ Hsplit Hfails)).
Defined.

Lemma profile_writes_come_from_the_provider_run :
  exists prior,
    writeComesFrom plain prior
      (EvWriteProfile (Some roleCreds) "admin" (Some "eu-west-1") None).
Proof.
  destruct (profile_writes_come_from_the_provider happy plain writer "default"
              emptyWorld) as [evs [Htrace [Hwrites _]]].
  change (trace emptyWorld ++ evs) with evs in Htrace.
  assert (Hsplit : evs = firstn 3 evs ++ nth 3 evs EvUsage :: skipn 4 evs)
    by (rewrite <- Htrace; reflexivity).
  assert (Hclass : isWriteProfile (nth 3 evs EvUsage) = true)
    by (rewrite <- Htrace; reflexivity).
  destruct (Hwrites _ _ _ Hsplit Hclass) as [pre' [prior [_ Hfrom]]].
  exists prior. rewrite <- Htrace in Hfrom. exact Hfrom.
Defined.

Lemma export_comes_after_the_target_profile_run :
  exportProfile plain = true
  /\ exists prior, exportComesAfter plain prior (EvCreate exportPath None).
Proof.
  destruct (export_comes_after_the_target_profile happy plain writer "default"
              emptyWorld) as [evs [Htrace Hexport]].
  change (trace emptyWorld ++ evs) with evs in Htrace.
  assert (Hsplit : evs = firstn 4 evs ++ nth 4 evs EvUsage :: skipn 5 evs)
    by (rewrite <- Htrace; reflexivity).
  assert (Hclass : isCreate (nth 4 evs EvUsage) || isWrite (nth 4 evs EvUsage) = true)
    by (rewrite <- Htrace; reflexivity).
  destruct (Hexport _ _ _ Hsplit Hclass) as [Hasked [pre' [prior [_ Hafter]]]].
  split; [exact Hasked|].
  exists prior. rewrite <- Htrace in Hafter. exact Hafter.
Defined.

Lemma sessions_use_base_or_intermediate_profile_run :
  newSessionOptions "mfa" "eu-west-1" = getBaseSessionOptions withMfa
  \/ (isEmpty (tokenSerialNumber withMfa) = false
      /\ newSessionOptions "mfa" "eu-west-1" = getIntermediateSessionOptions withMfa).
Proof.
  destruct (sessions_use_base_or_intermediate_profile expired withMfa writer
              emptyWorld) as [evs [Htrace [Hsessions _]]].
  change (trace emptyWorld ++ evs) with evs in Htrace.
  apply (Hsessions (newSessionOptions "mfa" "eu-west-1")
           (Ok {| sessOptions := newSessionOptions "mfa" "eu-west-1";
                  sessRegion := Some "eu-west-1" |})).
  rewrite <- Htrace. left. reflexivity.
Defined.

Lemma one_code_per_cycle_from_the_configured_source_run :
  exists prior,
    acquisitionAnnounced withMfa prior (EvExec (mfaExec withMfa) (Ok rawToken)).
Proof.
  destruct (one_code_per_cycle_from_the_configured_source expired withMfa writer
              "mfa" emptyWorld) as [evs [Htrace [Hasked _]]].
  change (trace emptyWorld ++ evs) with evs in Htrace.
  assert (Hsplit : evs = firstn 4 evs ++ nth 4 evs EvUsage :: skipn 5 evs)
    by (rewrite <- Htrace; reflexivity).
  assert (Hclass : isTokenAcquisition (nth 4 evs EvUsage) = true)
    by (rewrite <- Htrace; reflexivity).
  destruct (Hasked _ _ _ Hsplit Hclass) as [pre' [prior [_ Hann]]].
  exists prior. rewrite <- Htrace in Hann. exact Hann.
Defined.

Lemma plain_run_end_to_end_run :
  let w' := finalWorld (main happy 1 plain emptyWorld) in
  Validate happy plain = None
  /\ isEmpty (tokenSerialNumber plain) = true
  /\ renew plain = false
  /\ exportProfile plain = true
  /\ main happy 1 plain emptyWorld = Ret tt w'
  /\ (forall path text u, String.length text <= file_Write happy path text u)
  /\ files w' (exportFile plain) = Some (exportText (targetProfile plain)).
Proof.
  cbv zeta. do 5 (split; [reflexivity|]).
  split; [intros path text u; apply le_n|].
  destruct (plain_run_end_to_end happy 0 plain emptyWorld _
              eq_refl eq_refl eq_refl eq_refl eq_refl)
    as [pw [rgn [output [arn [name [role H]]]]]].
  cbv zeta in H. destruct H as [_ [_ [_ [_ Hfull]]]].
  apply Hfull. intros path text u. apply le_n.
Defined.

Lemma refresh_cycle_end_to_end_run :
  let w1 := finalWorld (validateSessionToken expired
                          (getIntermediateSessionOptions withMfa) emptyWorld) in
  let w' := finalWorld (cycle expired withMfa writer "mfa" emptyWorld) in
  isEmpty (tokenSerialNumber withMfa) = false
  /\ validateSessionToken expired (getIntermediateSessionOptions withMfa) emptyWorld
     = Ret false w1
  /\ cycle expired withMfa writer "mfa" emptyWorld = Ret tt w'
  /\ exists arn name, roleSessionNameOf arn = Some name.
Proof.
  cbv zeta. repeat (split; [reflexivity|]).
  destruct (refresh_cycle_end_to_end expired withMfa writer "mfa" emptyWorld _ _
              eq_refl eq_refl eq_refl)
    as [rgn0 [raw [token [rgn [output [arn [name [role H]]]]]]]].
  cbv zeta in H. exists arn, name. exact (proj1 (proj2 H)).
Defined.

Lemma exits_of_swamp_have_status_one_run :
  let w' := finalWorld (main noStore 5 withMfa emptyWorld) in
  main noStore 5 withMfa emptyWorld = Exit 1 w'
  /\ exists pre e, trace w' = pre ++ [e] /\ (isStderr e = true \/ e = EvUsage).
Proof.
  cbv zeta. split; [reflexivity|].
  exact (proj2 (exits_of_swamp_have_status_one noStore 5 withMfa emptyWorld 1 _
                  eq_refl)).
Defined.

Lemma export_write_error_is_dropped_run :
  os_Create diskFull (exportFile plain) usedWorld = None
  /\ files usedWorld exportPath = Some "export AWS_PROFILE=old-profile-left-here"
  /\ exists w',
       writeProfileToFile diskFull plain usedWorld = Ret tt w'
       /\ files w' exportPath = Some EmptyString.
Proof.
  split; [reflexivity|]. split; [reflexivity|].
  destruct (export_write_error_is_dropped diskFull plain usedWorld eq_refl)
    as [w' [Hrun [_ [_ [_ Hempty]]]]].
  exists w'. split; [exact Hrun|]. exact (Hempty eq_refl).
Defined.

End MoreRuns.
